(** * AMT worker monitor: the batch filter, the two paginated fetchers and
    the polling cycle of [mt_worker_monitor.py] and [utils.py].

    Conventions of the embedding.
    - A Python [str] is a [string]; the characters are code points below
      256, among which the decimal digits of [\d] are exactly ['0'..'9'].
    - A Python [int] is a [Z].
    - A dict read by key is a record; a key the marketplace may omit is
      an [option] field, and reading it when absent raises [KeyError].
    - [Counter] is a [gmap string Z] read with default [0]; the [set] of
      blacklisted workers is a [gset string].
    - An exception is the [Raised] outcome; a [while True] loop that polls
      the service takes fuel and answers [OutOfFuel] when it runs dry.
    - Calls into the environment (the marketplace client, the logger,
      [warnings.warn]) are taken to return normally; the ones with an
      effect are recorded, in order, as [event]s. [time.sleep] returns
      for an interval that is not negative and raises [ValueError] for
      one that is; intervals are taken within the range of the clock. *)

From Stdlib Require Import ZArith Ascii String.
From stdpp Require Import base option list gmap sets strings pretty.

Local Open Scope Z_scope.

(** ** Exceptions and outcomes *)

Inductive exn : Type :=
| KeyError (key : string)
| IndexError (msg : string)
| AttributeError (msg : string)
| ValueError (msg : string).

Inductive outcome (A : Type) : Type :=
| Done (a : A)
| Raised (e : exn)
| OutOfFuel.

Arguments Done {A} a.
Arguments Raised {A} e.
Arguments OutOfFuel {A}.

(** Sequencing: the first exception, or the lack of fuel, ends the run.
    With these instances [x ← c; k] is stdpp's notation for it. *)
#[global] Instance outcome_ret : MRet outcome := fun A a => Done a.

#[global] Instance outcome_bind : MBind outcome := fun A B k c =>
  match c with
  | Done a => k a
  | Raised e => Raised e
  | OutOfFuel => OutOfFuel
  end.

(** ** Strings: the pieces of [re.search], [str.split] and [int] in use *)

Module Str.

(** [\d] on code points below 256. *)
Definition is_digit (c : ascii) : bool :=
  let n := nat_of_ascii c in ((48 <=? n) && (n <=? 57))%nat.

Definition digit_value (c : ascii) : Z := Z.of_nat (nat_of_ascii c) - 48.

(** [p] is a prefix of [s]: what is left of [s] after it. *)
Fixpoint strip_prefix (p s : string) : option string :=
  match p with
  | EmptyString => Some s
  | String a p' =>
      match s with
      | EmptyString => None
      | String b s' => if Ascii.eqb a b then strip_prefix p' s' else None
      end
  end.

(** The greedy [\d*] at the head of [s]. *)
Fixpoint take_digits (s : string) : string :=
  match s with
  | EmptyString => EmptyString
  | String c s' => if is_digit c then String c (take_digits s') else EmptyString
  end.

Fixpoint all_digits (s : string) : bool :=
  match s with
  | EmptyString => true
  | String c s' => is_digit c && all_digits s'
  end.

(** [r'BatchId:\d+'] anchored at the head of [s]: the matched text. *)
Definition match_here (s : string) : option string :=
  match strip_prefix "BatchId:" s with
  | Some rest =>
      match take_digits rest with
      | EmptyString => None
      | ds => Some ("BatchId:" +:+ ds)
      end
  | None => None
  end.

(** [re.search(r'BatchId:\d+', s)]: the leftmost match, [None] without
    one; the result stands for the match object and holds [group(0)]. *)
Fixpoint re_search (s : string) : option string :=
  match match_here s with
  | Some m => Some m
  | None =>
      match s with
      | EmptyString => None
      | String _ s' => re_search s'
      end
  end.

(** [s.split(sep)] for a separator of one character. *)
Fixpoint split (sep : ascii) (s : string) : list string :=
  match s with
  | EmptyString => [EmptyString]
  | String c s' =>
      if Ascii.eqb c sep then EmptyString :: split sep s'
      else match split sep s' with
           | f :: fs => String c f :: fs
           | [] => [String c EmptyString]
           end
  end.

Fixpoint int_digits (acc : Z) (s : string) : option Z :=
  match s with
  | EmptyString => Some acc
  | String c s' =>
      if is_digit c then int_digits (10 * acc + digit_value c) s' else None
  end.

(** [int(s)] on the texts that reach it here, runs of decimal digits;
    the empty text and any other character are a [ValueError]. *)
Definition int (s : string) : option Z :=
  match s with
  | EmptyString => None
  | _ => int_digits 0 s
  end.

End Str.

(** ** Records of the marketplace API *)

(** A HIT as [list_hits] returns it. [RequesterAnnotation] is optional in
    the service's HIT structure. *)
Record HIT : Type := {
  HITId : string;
  RequesterAnnotation : option string
}.

(** ** [utils.batch_id_match] *)

Definition batch_id_match (hit : HIT) (batch_id : Z) : outcome bool :=
  match RequesterAnnotation hit with
  | None => Raised (KeyError "RequesterAnnotation")
  | Some req_ann =>
      match Str.re_search req_ann with
      | None => Raised (AttributeError "'NoneType' object has no attribute 'group'")
      | Some hit_batch_id =>
          match last (Str.split ":" hit_batch_id) with
          | None => Raised (IndexError "list index out of range")
          | Some field =>
              match Str.int field with
              | None => Raised (ValueError "invalid literal for int() with base 10")
              | Some n => Done (n =? batch_id)
              end
          end
      end
  end.

(** [s] holds a ["BatchId:<digits>"] token: the literal, then a digit. *)
Definition has_token (s : string) : Prop :=
  ∃ pre d post, Str.is_digit d = true ∧ s = pre +:+ "BatchId:" +:+ String d post.

(** The annotation of [hit] holds no token, or [hit] has no annotation. *)
Definition lacks_token (hit : HIT) : Prop :=
  match RequesterAnnotation hit with
  | None => True
  | Some ann => ¬ has_token ann
  end.

(** An assignment as [list_assignments_for_hit] returns it. *)
Record Assignment : Type := {
  WorkerId : string;
  AssignmentStatus : string
}.

(** An entry of [list_workers_with_qualification_type]. *)
Record Qualification : Type := {
  QualWorkerId : string;
  QualStatus : string
}.

Record ListHITsResponse : Type := {
  HITsNextToken : option string;
  HITs : list HIT
}.

Record ListWorkersResponse : Type := {
  QualificationsNextToken : option string;
  Qualifications : list Qualification
}.

Record ListAssignmentsResponse : Type := {
  Assignments : list Assignment
}.

(** The boto3 client [self.mt], over a marketplace state [M]. The three
    listing operations read the state; [kwargs] of the paginated ones is
    the optional [NextToken], their other arguments being fixed. *)
Record MTurk (M : Type) : Type := {
  list_hits : M → option string → ListHITsResponse;
  list_assignments_for_hit : M → string → list string → ListAssignmentsResponse;
  list_workers_with_qualification_type :
    M → string → string → option string → ListWorkersResponse;
  associate_qualification_with_worker : M → string → string → bool → M
}.

Arguments list_hits {M} _ _ _.
Arguments list_assignments_for_hit {M} _ _ _ _.
Arguments list_workers_with_qualification_type {M} _ _ _ _ _.
Arguments associate_qualification_with_worker {M} _ _ _ _ _.

(** What a run does to its environment, in order. *)
Inductive event : Type :=
| LogInfo (msg : string)
| Warn (msg : string)
| Grant (worker_id qualification_type_id : string) (send_notification : bool)
| Sleep (secs : Z).

#[global] Instance event_eq_dec : EqDecision event.
Proof. solve_decision. Defined.

(** The fields of [MTWorkerMonitor] that [run] and the fetchers read;
    [__init__] stores its arguments as they come. *)
Record MTWorkerMonitor : Type := {
  max_hits : Z;
  batch_id : Z;
  blacklist_qualification_id : string;
  sleep_time : Z
}.

Definition init (max_hits batch_id : Z) (blacklist_qualification_id : string)
    (sleep_time : Z) : MTWorkerMonitor :=
  {| max_hits := max_hits; batch_id := batch_id;
     blacklist_qualification_id := blacklist_qualification_id;
     sleep_time := sleep_time |}.

(** [[hit for hit in hits if batch_id_match(hit, batch_id)]] *)
Fixpoint filter_hits (batch_id : Z) (hits : list HIT) : outcome (list HIT) :=
  match hits with
  | [] => Done []
  | hit :: hits' =>
      b ← batch_id_match hit batch_id;
      rest ← filter_hits batch_id hits';
      mret (if b : bool then hit :: rest else rest)
  end.

(** [time.sleep(secs)]: a negative interval is refused. *)
Definition time_sleep (secs : Z) : outcome unit :=
  if secs <? 0 then Raised (ValueError "sleep length must be non-negative")
  else Done tt.

Section Monitor.

Context {M : Type} (mt : MTurk M) (self : MTWorkerMonitor).

(** The loop of [fetch_and_filter_hits]; [kwargs] is the [NextToken]
    entry of the keyword dictionary. *)
Fixpoint fetch_and_filter_hits_loop (fuel : nat) (m : M)
    (kwargs : option string) (coll : list HIT) : outcome (list HIT) :=
  match fuel with
  | O => OutOfFuel
  | S fuel' =>
      let resp := list_hits mt m kwargs in
      match HITsNextToken resp with
      | None => Done coll
      | Some tok =>
          let hits := HITs resp in
          kept ← filter_hits (batch_id self) hits;
          fetch_and_filter_hits_loop fuel' m (Some tok) (coll ++ kept)
      end
  end.

Definition fetch_and_filter_hits (fuel : nat) (m : M) : outcome (list HIT) :=
  fetch_and_filter_hits_loop fuel m None [].

(** The loop of [fetch_workers_with_qualification]. *)
Fixpoint fetch_workers_with_qualification_loop (fuel : nat) (m : M)
    (kwargs : option string) (worker_ids : list string) : outcome (list string) :=
  match fuel with
  | O => OutOfFuel
  | S fuel' =>
      let resp := list_workers_with_qualification_type mt m
                    (blacklist_qualification_id self) "Granted" kwargs in
      match QualificationsNextToken resp with
      | None => Done worker_ids
      | Some tok =>
          let workers := Qualifications resp in
          fetch_workers_with_qualification_loop fuel' m (Some tok)
            (worker_ids ++ map QualWorkerId workers)
      end
  end.

Definition fetch_workers_with_qualification (fuel : nat) (m : M) : outcome (list string) :=
  fetch_workers_with_qualification_loop fuel m None [].

(** The state of the tally of one cycle: [worker_counter], the locally
    extended [blacklisted_workers], the marketplace and the events so far. *)
Record tally : Type := {
  worker_counter : gmap string Z;
  blacklisted_workers : gset string;
  market : M;
  trace : list event
}.

(** [Counter.__getitem__]: a missing key counts [0]. *)
Definition count_of (c : gmap string Z) (worker_id : string) : Z :=
  default 0 (c !! worker_id).

(** The body of [for assignment in assignments]. *)
Definition tally_assignment (st : tally) (assignment : Assignment) : tally :=
  let worker_id := WorkerId assignment in
  let counter := <[worker_id := count_of (worker_counter st) worker_id + 1]>
                   (worker_counter st) in
  if bool_decide (max_hits self ≤ count_of counter worker_id)
     && bool_decide (worker_id ∉ blacklisted_workers st)
  then {| worker_counter := counter;
          blacklisted_workers := {[worker_id]} ∪ blacklisted_workers st;
          market := associate_qualification_with_worker mt (market st)
                      worker_id (blacklist_qualification_id self) false;
          trace := trace st ++
                   [Grant worker_id (blacklist_qualification_id self) false;
                    LogInfo ("worker '" +:+ worker_id +:+ "' is blacklisted.")] |}
  else {| worker_counter := counter;
          blacklisted_workers := blacklisted_workers st;
          market := market st;
          trace := trace st |}.

(** The body of [for hit in hits]. *)
Definition tally_hit (st : tally) (hit : HIT) : tally :=
  let hit_id := HITId hit in
  let resp := list_assignments_for_hit mt (market st) hit_id
                ["Submitted"; "Approved"] in
  let assignments := Assignments resp in
  foldl tally_assignment st assignments.

(** Lines 75 to 93 of [run]: a fresh [Counter], then every hit. *)
Definition tally_phase (m : M) (blacklisted : gset string) (hits : list HIT) : tally :=
  foldl tally_hit
    {| worker_counter := ∅; blacklisted_workers := blacklisted;
       market := m; trace := [] |}
    hits.

(** The text of the warning: only the first literal is an f-string, the
    braces of the second reach the message as they are. *)
Definition no_hits_warning : string :=
  "No HITs were found for 'batch_id'={self.batch_id}.".

(** One turn of [while True] in [run]: the marketplace it leaves and
    the events of the turn, when the turn ends; an exception ends the
    process, whatever the turn did before it. *)
Definition cycle (fuel : nat) (m : M) : outcome (M * list event) :=
  worker_ids ← fetch_workers_with_qualification fuel m;
  let blacklisted := list_to_set worker_ids in
  hits ← fetch_and_filter_hits fuel m;
  let warned := if (length hits =? 0)%nat then [Warn no_hits_warning] else [] in
  let st := tally_phase m blacklisted hits in
  _ ← time_sleep (sleep_time self);
  mret (market st, warned ++ trace st ++ [Sleep (sleep_time self)]).

(** The first [cycles] turns of the loop, which has no exit of its own.
    Between turns the marketplace is the one the last turn left. *)
Fixpoint monitor_loop (cycles fuel : nat) (m : M) : outcome (M * list event) :=
  match cycles with
  | O => mret (m, [])
  | S cycles' =>
      r ← cycle fuel m;
      r' ← monitor_loop cycles' fuel r.1;
      mret (r'.1, r.2 ++ r'.2)
  end.

(** [run], cut after [cycles] turns of its loop. *)
Definition run (cycles fuel : nat) (m : M) : outcome (M * list event) :=
  init_blacklisted_workers ← fetch_workers_with_qualification fuel m;
  let listed :=
    if (0 <? length init_blacklisted_workers)%nat
    then LogInfo "The initial blacklist has the following workers:"
         :: map (λ worker_id, LogInfo ("--- '" +:+ worker_id +:+ "' ---"))
                init_blacklisted_workers
    else [] in
  let starting :=
    LogInfo ("Starting to monitor workers for 'batch_id'="
             +:+ pretty (batch_id self) +:+ " with "
             +:+ pretty (sleep_time self) +:+ " (s) sleep intervals.") in
  r ← monitor_loop cycles fuel m;
  mret (r.1, listed ++ starting :: r.2).

(** The responses of [list_hits] from [kwargs] on, each [NextToken]
    followed: the pages that carry a token, in order, and the page that
    carries none. *)
Inductive hit_pages (m : M) :
  option string → list ListHITsResponse → ListHITsResponse → Prop :=
| hit_pages_last kwargs :
    HITsNextToken (list_hits mt m kwargs) = None →
    hit_pages m kwargs [] (list_hits mt m kwargs)
| hit_pages_next kwargs tok rs r :
    HITsNextToken (list_hits mt m kwargs) = Some tok →
    hit_pages m (Some tok) rs r →
    hit_pages m kwargs (list_hits mt m kwargs :: rs) r.

(** The same for [list_workers_with_qualification_type]. *)
Inductive worker_pages (m : M) :
  option string → list ListWorkersResponse → ListWorkersResponse → Prop :=
| worker_pages_last kwargs :
    QualificationsNextToken
      (list_workers_with_qualification_type mt m
         (blacklist_qualification_id self) "Granted" kwargs) = None →
    worker_pages m kwargs []
      (list_workers_with_qualification_type mt m
         (blacklist_qualification_id self) "Granted" kwargs)
| worker_pages_next kwargs tok rs r :
    QualificationsNextToken
      (list_workers_with_qualification_type mt m
         (blacklist_qualification_id self) "Granted" kwargs) = Some tok →
    worker_pages m (Some tok) rs r →
    worker_pages m kwargs
      (list_workers_with_qualification_type mt m
         (blacklist_qualification_id self) "Granted" kwargs :: rs) r.

End Monitor.

Arguments worker_counter {M} _.
Arguments blacklisted_workers {M} _.
Arguments market {M} _.
Arguments trace {M} _.

(** ** A scripted marketplace for the scenarios *)

Module Mock.

Record state : Type := {
  hit_pages : list (option string * ListHITsResponse);
  worker_pages : list (option string * ListWorkersResponse);
  assignments : list (string * list Assignment);
  granted : list (string * string)
}.

Fixpoint assoc {K V : Type} `{EqDecision K} (k : K) (l : list (K * V)) : option V :=
  match l with
  | [] => None
  | (k', v) :: l' => if decide (k = k') then Some v else assoc k l'
  end.

Definition client : MTurk state := {|
  list_hits m kwargs :=
    default {| HITsNextToken := None; HITs := [] |} (assoc kwargs (hit_pages m));
  list_assignments_for_hit m hit_id statuses :=
    {| Assignments :=
         filter (λ a, AssignmentStatus a ∈ statuses)
                (default [] (assoc hit_id (assignments m))) |};
  list_workers_with_qualification_type m qid status kwargs :=
    default {| QualificationsNextToken := None; Qualifications := [] |}
            (assoc kwargs (worker_pages m));
  associate_qualification_with_worker m worker_id qid notify :=
    {| hit_pages := hit_pages m; worker_pages := worker_pages m;
       assignments := assignments m;
       granted := granted m ++ [(worker_id, qid)] |}
|}.

Definition hit (id ann : string) : HIT :=
  {| HITId := id; RequesterAnnotation := Some ann |}.

Definition submitted (w : string) : Assignment :=
  {| WorkerId := w; AssignmentStatus := "Submitted" |}.

Definition holder (w : string) : Qualification :=
  {| QualWorkerId := w; QualStatus := "Granted" |}.

End Mock.

(** The workers of the [Grant] events of a trace, in order. *)
Definition grants (evs : list event) : list string :=
  omap (λ ev, match ev with Grant w _ _ => Some w | _ => None end) evs.

(** What a tally keeps true about its grants, from a blacklist [bl0]
    on: no worker twice, none from [bl0], each one blacklisted since. *)
Definition granted_once {M : Type} (bl0 : gset string) (st : tally (M := M)) : Prop :=
  NoDup (grants (trace st))
  ∧ (∀ w, w ∈ grants (trace st) → w ∈ blacklisted_workers st ∧ w ∉ bl0)
  ∧ bl0 ⊆ blacklisted_workers st.

(** ** The scenarios *)

Module Scenario.

(** The monitor of the end-to-end scenario: [max_hits=3], batch 42. *)
Definition self : MTWorkerMonitor := init 3 42 "QUAL" 10.

Definition task : HIT := Mock.hit "HIT1" "BatchId:42".

(** One in-batch task and its six submitted assignments. *)
Definition tallied : Mock.state := {|
  Mock.hit_pages := [];
  Mock.worker_pages := [];
  Mock.assignments :=
    [("HIT1", Mock.submitted <$> ["A"; "A"; "B"; "A"; "C"; "B"])];
  Mock.granted := []
|}.

(** A listing of one response: it holds an in-batch task and, being the
    last, no [NextToken]. *)
Definition one_page : Mock.state := {|
  Mock.hit_pages := [(None, {| HITsNextToken := None; HITs := [task] |})];
  Mock.worker_pages :=
    [(None, {| QualificationsNextToken := None;
               Qualifications := [Mock.holder "W1"] |})];
  Mock.assignments := [];
  Mock.granted := []
|}.

(** A listing of two responses, the second being the last. *)
Definition two_pages : Mock.state := {|
  Mock.hit_pages :=
    [(None, {| HITsNextToken := Some "p2";
               HITs := [Mock.hit "HIT1" "BatchId:42"; Mock.hit "HIT2" "BatchId:7"] |});
     (Some "p2", {| HITsNextToken := None;
                    HITs := [Mock.hit "HIT3" "BatchId:42"] |})];
  Mock.worker_pages :=
    [(None, {| QualificationsNextToken := Some "p2";
               Qualifications := [Mock.holder "W1"; Mock.holder "W2"] |});
     (Some "p2", {| QualificationsNextToken := None;
                    Qualifications := [Mock.holder "W3"] |})];
  Mock.assignments := [];
  Mock.granted := []
|}.

(** A task whose annotation names two batches. *)
Definition two_tokens : HIT := Mock.hit "HIT9" "BatchId:1;BatchId:2".

(** A task whose annotation names no batch, on a page that carries a
    token. *)
Definition untagged : HIT := Mock.hit "HIT5" "OriginalHitTemplateId:928390909;".

Definition untagged_listing : Mock.state := {|
  Mock.hit_pages :=
    [(None, {| HITsNextToken := Some "p2"; HITs := [task; untagged] |});
     (Some "p2", {| HITsNextToken := None; HITs := [] |})];
  Mock.worker_pages := [];
  Mock.assignments := [];
  Mock.granted := []
|}.

(** A cycle in which [W], blacklisted at its start, and [A], who is not,
    both pass the threshold of three. *)
Definition busy : Mock.state := {|
  Mock.hit_pages :=
    [(None, {| HITsNextToken := Some "p2"; HITs := [task] |});
     (Some "p2", {| HITsNextToken := None; HITs := [] |})];
  Mock.worker_pages :=
    [(None, {| QualificationsNextToken := Some "p2";
               Qualifications := [Mock.holder "W"] |});
     (Some "p2", {| QualificationsNextToken := None; Qualifications := [] |})];
  Mock.assignments :=
    [("HIT1", Mock.submitted <$> ["A"; "W"; "A"; "W"; "A"; "W"; "A"; "W"])];
  Mock.granted := []
|}.



(** Listings whose second response hands out its own token again. *)
Definition looping : Mock.state := {|
  Mock.hit_pages :=
    [(None, {| HITsNextToken := Some "p1"; HITs := [task] |});
     (Some "p1", {| HITsNextToken := Some "p1"; HITs := [] |})];
  Mock.worker_pages :=
    [(None, {| QualificationsNextToken := Some "p1";
               Qualifications := [Mock.holder "W1"] |});
     (Some "p1", {| QualificationsNextToken := Some "p1"; Qualifications := [] |})];
  Mock.assignments := [];
  Mock.granted := []
|}.

(** A marketplace whose list of qualified workers fits one response: it
    names [A], who has three assignments on the task of the batch. *)
Definition relisted : Mock.state := {|
  Mock.hit_pages :=
    [(None, {| HITsNextToken := Some "p2"; HITs := [task] |});
     (Some "p2", {| HITsNextToken := None; HITs := [] |})];
  Mock.worker_pages :=
    [(None, {| QualificationsNextToken := None;
               Qualifications := [Mock.holder "A"] |})];
  Mock.assignments := [("HIT1", Mock.submitted <$> ["A"; "A"; "A"])];
  Mock.granted := []
|}.

(** The task that names no batch, on the only response of a listing,
    and on the last response of a listing of two. *)
Definition untagged_last : Mock.state := {|
  Mock.hit_pages := [(None, {| HITsNextToken := None; HITs := [untagged] |})];
  Mock.worker_pages := [];
  Mock.assignments := [];
  Mock.granted := []
|}.

Definition untagged_after : Mock.state := {|
  Mock.hit_pages :=
    [(None, {| HITsNextToken := Some "p2"; HITs := [task] |});
     (Some "p2", {| HITsNextToken := None; HITs := [untagged] |})];
  Mock.worker_pages := [];
  Mock.assignments := [];
  Mock.granted := []
|}.

(** A monitor with a threshold of zero. *)
Definition eager : MTWorkerMonitor := init 0 42 "QUAL" 10.

End Scenario.

(** ** [utils.setup_logger] *)

Module Logging.

Definition NOTSET : Z := 0.
Definition INFO : Z := 20.

(** A [StreamHandler] object: which one it is, and its format. *)
Record Handler : Type := {
  handler_id : nat;
  formatter : option string
}.

Record Logger : Type := {
  level : Z;
  handlers : list Handler
}.

(** The state of the [logging] module: its loggers by name, shared by all
    callers, and the number of handler objects made so far. *)
Record state : Type := {
  loggers : gmap string Logger;
  created : nat
}.

(** [logging.getLogger(name)]: the logger of that name, made on first use. *)
Definition getLogger (s : state) (name : string) : Logger :=
  default {| level := NOTSET; handlers := [] |} (loggers s !! name).

Definition setLevel (lg : Logger) (lvl : Z) : Logger :=
  {| level := lvl; handlers := handlers lg |}.

Definition setFormatter (h : Handler) (fmt : string) : Handler :=
  {| handler_id := handler_id h; formatter := Some fmt |}.

(** [Logger.addHandler]: appended unless that very object is there. *)
Definition addHandler (lg : Logger) (h : Handler) : Logger :=
  if bool_decide (handler_id h ∈ handler_id <$> handlers lg) then lg
  else {| level := level lg; handlers := handlers lg ++ [h] |}.

(** [setup_logger()], on the state of the module; the logger it returns
    is the one named ["monitor"] of the state it leaves. *)
Definition setup_logger (s : state) : state :=
  let logger := getLogger s "monitor" in
  let logger := setLevel logger INFO in
  let stream_handler := {| handler_id := created s; formatter := None |} in
  let stream_handler :=
    setFormatter stream_handler "%(asctime)s [%(levelname)s]: %(message)s" in
  let logger := addHandler logger stream_handler in
  {| loggers := <["monitor" := logger]> (loggers s); created := S (created s) |}.

(** The handlers of a state are objects made earlier. *)
Definition well_formed (s : state) : Prop :=
  ∀ name lg h, loggers s !! name = Some lg → h ∈ handlers lg →
               (handler_id h < created s)%nat.

Definition fresh : state := {| loggers := ∅; created := 0 |}.

End Logging.

(** ** Notions for the further facts *)

(** [hit] is kept by the comprehension of [fetch_and_filter_hits]. *)
Definition in_batch (batch_id : Z) (hit : HIT) : bool :=
  match batch_id_match hit batch_id with
  | Done true => true
  | _ => false
  end.

Definition is_sleep (ev : event) : bool :=
  match ev with
  | Sleep _ => true
  | _ => false
  end.

(** What one grant leaves in the trace: the call and its log entry. *)
Definition grant_events (self : MTWorkerMonitor) (w : string) : list event :=
  [Grant w (blacklist_qualification_id self) false;
   LogInfo ("worker '" +:+ w +:+ "' is blacklisted.")].

(** What a tally keeps true from the marketplace [m0] and the blacklist
    [bl0] on: the blacklist grows by the granted workers only; a granted
    worker has a count, which has reached [max_hits]; a worker whose count
    has reached it is blacklisted; the trace and the marketplace are made
    of the grants, in order. *)
Definition tallied {M : Type} (mt : MTurk M) (self : MTWorkerMonitor) (m0 : M)
    (bl0 : gset string) (st : tally (M := M)) : Prop :=
  blacklisted_workers st = bl0 ∪ list_to_set (grants (trace st))
  ∧ (∀ w, w ∈ grants (trace st) →
          is_Some (worker_counter st !! w)
          ∧ max_hits self ≤ count_of (worker_counter st) w)
  ∧ (∀ w c, worker_counter st !! w = Some c → max_hits self ≤ c →
            w ∈ blacklisted_workers st)
  ∧ trace st = concat (grant_events self <$> grants (trace st))
  ∧ market st
    = foldl (λ m w, associate_qualification_with_worker mt m w
                      (blacklist_qualification_id self) false)
            m0 (grants (trace st)).

(** The counts of a tally are not negative. *)
Definition counted {M : Type} (st : tally (M := M)) : Prop :=
  ∀ w, 0 ≤ count_of (worker_counter st) w.

(** * Facts *)

(** ** The batch filter *)

Example batch_id_match_ex1 :
  batch_id_match {| HITId := "H"; RequesterAnnotation := Some "BatchId:3954555;OriginalHitTemplateId:928390909;" |} 3954555
  = Done true.
Proof. reflexivity. Qed.

Example batch_id_match_ex2 :
  batch_id_match {| HITId := "H"; RequesterAnnotation := Some "x BatchId:007 y" |} 7
  = Done true.
Proof. reflexivity. Qed.

Example batch_id_match_ex3 :
  batch_id_match {| HITId := "H"; RequesterAnnotation := Some "BatchId:" |} 7
  = Raised (AttributeError "'NoneType' object has no attribute 'group'").
Proof. reflexivity. Qed.

Section StrFacts.

Import Str.

Lemma str_app_nil_l s : "" +:+ s = s.
Proof. reflexivity. Qed.

Lemma str_app_cons c s t : String c s +:+ t = String c (s +:+ t).
Proof. reflexivity. Qed.

Lemma strip_prefix_Some p s r : strip_prefix p s = Some r ↔ s = p +:+ r.
Proof.
  revert s; induction p as [|a p IH]; intros s; simpl.
  - split; [intros [= ->]; reflexivity | intros ->; reflexivity].
  - destruct s as [|b s]; [split; discriminate|].
    destruct (Ascii.eqb_spec a b) as [->|Hne].
    + rewrite IH. split; [intros ->; reflexivity | intros [= H]; exact H].
    + split; [discriminate | intros [= Hab _]; destruct (Hne (eq_sym Hab))].
Qed.

Lemma match_here_Some s m :
  match_here s = Some m →
  ∃ d rest, is_digit d = true ∧ s = "BatchId:" +:+ String d rest
            ∧ m = "BatchId:" +:+ take_digits (String d rest).
Proof.
  unfold match_here. destruct (strip_prefix "BatchId:" s) as [rest|] eqn:E; [|discriminate].
  apply strip_prefix_Some in E. subst s.
  destruct rest as [|d rest]; [discriminate|].
  cbn [take_digits]. destruct (is_digit d) eqn:Hd; [|discriminate].
  intros [= <-]. exists d, rest. rewrite Hd. auto.
Qed.

Lemma match_here_token d rest :
  is_digit d = true →
  match_here ("BatchId:" +:+ String d rest)
  = Some ("BatchId:" +:+ take_digits (String d rest)).
Proof.
  intros Hd. unfold match_here.
  replace (strip_prefix "BatchId:" ("BatchId:" +:+ String d rest))
    with (Some (String d rest)) by (symmetry; apply strip_prefix_Some; reflexivity).
  cbn [take_digits]. rewrite Hd. reflexivity.
Qed.

Lemma has_token_tail c s : has_token s → has_token (String c s).
Proof.
  intros (pre & d & post & Hd & ->). exists (String c pre), d, post. auto.
Qed.

Lemma match_here_has_token s m : match_here s = Some m → has_token s.
Proof.
  intros (d & rest & Hd & -> & _)%match_here_Some. exists "", d, rest. auto.
Qed.

Lemma re_search_None s : re_search s = None ↔ ¬ has_token s.
Proof.
  split.
  - induction s as [|c s IH]; simpl.
    + destruct (match_here "") eqn:E; [discriminate|].
      intros _ (pre & d & post & _ & H). destruct pre; discriminate.
    + destruct (match_here (String c s)) eqn:E; [discriminate|].
      intros Hs (pre & d & post & Hd & H).
      destruct pre as [|c' pre].
      * change (String c s = "BatchId:" +:+ String d post) in H.
        rewrite H, (match_here_token _ _ Hd) in E. discriminate.
      * simpl in H. injection H as -> ->. apply (IH Hs). exists pre, d, post. auto.
  - intros Hno. induction s as [|c s IH]; simpl.
    + destruct (match_here "") eqn:E; [|reflexivity].
      destruct Hno. eapply match_here_has_token, E.
    + destruct (match_here (String c s)) eqn:E.
      * destruct Hno. eapply match_here_has_token, E.
      * apply IH. intros H. apply Hno, has_token_tail, H.
Qed.

(** A match that starts inside [pre] and ends with a digit lies in [pre]:
    no character of the literal is a digit. *)
Lemma match_here_before pre d post :
  is_digit d = true → pre ≠ "" → ¬ has_token pre →
  match_here (pre +:+ "BatchId:" +:+ String d post) = None.
Proof.
  intros Hd Hne Hno.
  destruct (match_here _) as [m|] eqn:E; [|reflexivity].
  apply match_here_Some in E as (d' & rest & Hd' & E & _).
  destruct Hno.
  rewrite !str_app_cons, !str_app_nil_l in E.
  do 9 (destruct pre as [|? pre]; rewrite ?str_app_cons, ?str_app_nil_l in E;
        [first [congruence | injection E as <- _; vm_compute in Hd'; discriminate Hd']
        |injection E as -> E]).
  exists "", d', pre. split; [assumption|reflexivity].
Qed.

Lemma re_search_unfold s :
  re_search s =
  match match_here s with
  | Some m => Some m
  | None => match s with "" => None | String _ s' => re_search s' end
  end.
Proof. destruct s; reflexivity. Qed.

(** [re.search] answers with the leftmost token and its whole digit run. *)
Lemma re_search_leftmost pre d rest :
  is_digit d = true → ¬ has_token pre →
  re_search (pre +:+ "BatchId:" +:+ String d rest)
  = Some ("BatchId:" +:+ take_digits (String d rest)).
Proof.
  intros Hd. induction pre as [|c pre IH]; intros Hno.
  - rewrite str_app_nil_l, re_search_unfold, (match_here_token _ _ Hd). reflexivity.
  - rewrite re_search_unfold, (match_here_before _ _ _ Hd) by (auto; discriminate).
    rewrite str_app_cons. apply IH. intros H. apply Hno, has_token_tail, H.
Qed.

Lemma take_digits_app ds post :
  all_digits ds = true → take_digits (ds +:+ post) = ds +:+ take_digits post.
Proof.
  induction ds as [|c ds IH]; [reflexivity|].
  cbn [all_digits]. intros [Hc Hds]%andb_true_iff.
  rewrite !str_app_cons. cbn [take_digits]. rewrite Hc, IH by assumption. reflexivity.
Qed.

Lemma str_app_nil_r s : s +:+ "" = s.
Proof. induction s as [|c s IH]; [reflexivity|]. rewrite str_app_cons, IH. reflexivity. Qed.

Lemma int_digits_all acc s n : int_digits acc s = Some n → all_digits s = true.
Proof.
  revert acc; induction s as [|c s IH]; intros acc; [reflexivity|].
  cbn [int_digits all_digits]. destruct (is_digit c); [|discriminate].
  intros H. simpl. eapply IH, H.
Qed.

Lemma int_Some s n : int s = Some n → s ≠ "" ∧ all_digits s = true.
Proof.
  destruct s as [|c s]; [discriminate|]. unfold int. intros H.
  split; [discriminate | eapply int_digits_all, H].
Qed.

Lemma all_digits_int s : s ≠ "" → all_digits s = true → ∃ n, int s = Some n.
Proof.
  intros Hne Hall. destruct s as [|c s]; [congruence|]. unfold int. clear Hne.
  generalize 0. induction (String c s) as [|c' s' IH]; intros acc; [eauto|].
  cbn [all_digits] in Hall. apply andb_true_iff in Hall as [Hc Hs].
  cbn [int_digits]. rewrite Hc. apply IH, Hs.
Qed.

Lemma split_digits ds : all_digits ds = true → split ":" ds = [ds].
Proof.
  induction ds as [|c ds IH]; [reflexivity|].
  cbn [all_digits]. intros [Hc Hds]%andb_true_iff.
  cbn [split]. rewrite IH by assumption.
  destruct (Ascii.eqb_spec c ":") as [->|_]; [discriminate Hc | reflexivity].
Qed.

(** [hit_batch_id.split(":")[-1]] on a match is its digit run. *)
Lemma last_split_match ds :
  all_digits ds = true → last (split ":" ("BatchId:" +:+ ds)) = Some ds.
Proof.
  intros Hds. rewrite !str_app_cons, str_app_nil_l. cbn [split Ascii.eqb Bool.eqb].
  rewrite split_digits by assumption. reflexivity.
Qed.

End StrFacts.

(** The filter on a task whose leftmost token carries the digits [ds],
    no digit following them. *)
Lemma batch_id_match_leftmost hit pre ds post n b :
  RequesterAnnotation hit = Some (pre +:+ "BatchId:" +:+ ds +:+ post) →
  ¬ has_token pre → Str.int ds = Some n → Str.take_digits post = "" →
  batch_id_match hit b = Done (n =? b).
Proof.
  intros Hann Hpre Hint Hpost.
  destruct (int_Some _ _ Hint) as [Hne Hall].
  unfold batch_id_match. rewrite Hann.
  destruct ds as [|d ds]; [congruence|].
  assert (Hd : Str.is_digit d = true).
  { cbn [Str.all_digits] in Hall. by apply andb_true_iff in Hall as [? _]. }
  rewrite (str_app_cons d ds post), (re_search_leftmost _ _ _ Hd Hpre).
  rewrite <- (str_app_cons d ds post), take_digits_app, Hpost, str_app_nil_r by assumption.
  rewrite last_split_match, Hint by assumption. reflexivity.
Qed.

Lemma batch_id_match_lacking hit b :
  lacks_token hit →
  batch_id_match hit b
  = match RequesterAnnotation hit with
    | None => Raised (KeyError "RequesterAnnotation")
    | Some _ => Raised (AttributeError "'NoneType' object has no attribute 'group'")
    end.
Proof.
  unfold lacks_token, batch_id_match.
  destruct (RequesterAnnotation hit) as [ann|]; [|reflexivity].
  intros Hno%re_search_None. rewrite Hno. reflexivity.
Qed.

Lemma batch_id_match_returns hit b : batch_id_match hit b ≠ OutOfFuel.
Proof.
  unfold batch_id_match. repeat case_match; discriminate.
Qed.

(** C6, amended: on a task whose leftmost ["BatchId:<digits>"] token
    carries the digits of [n] and no digit after them, the filter answers
    true for [n] and false for every other integer. *)
Theorem batch_id_match_leftmost_token hit pre ds post n :
  RequesterAnnotation hit = Some (pre +:+ "BatchId:" +:+ ds +:+ post) →
  ¬ has_token pre → Str.int ds = Some n → Str.take_digits post = "" →
  batch_id_match hit n = Done true
  ∧ ∀ m, m ≠ n → batch_id_match hit m = Done false.
Proof.
  intros Hann Hpre Hint Hpost. split.
  - rewrite (batch_id_match_leftmost _ _ _ _ _ _ Hann Hpre Hint Hpost).
    by rewrite Z.eqb_refl.
  - intros m Hm.
    rewrite (batch_id_match_leftmost _ _ _ _ _ _ Hann Hpre Hint Hpost).
    f_equal. apply Z.eqb_neq. congruence.
Qed.

Lemma has_token_empty : ¬ has_token "".
Proof. apply re_search_None. reflexivity. Qed.

Lemma batch_id_match_leftmost_token_witness :
  batch_id_match Scenario.two_tokens 1 = Done true
  ∧ ∀ m, m ≠ 1 → batch_id_match Scenario.two_tokens m = Done false.
Proof.
  apply (batch_id_match_leftmost_token Scenario.two_tokens "" "1" ";BatchId:2" 1).
  - reflexivity.
  - exact has_token_empty.
  - reflexivity.
  - reflexivity.
Defined.

(** C6, as stated, fails: the annotation of [two_tokens] holds the token
    ["BatchId:2"], and the filter answers false for [2] and true for [1]. *)
Lemma batch_id_match_second_token :
  RequesterAnnotation Scenario.two_tokens
  = Some ("BatchId:1;" +:+ "BatchId:" +:+ "2" +:+ "")
  ∧ Str.int "2" = Some 2
  ∧ batch_id_match Scenario.two_tokens 2 = Done false
  ∧ batch_id_match Scenario.two_tokens 1 = Done true.
Proof. repeat split. Qed.

(** ** The fetchers *)

Lemma filter_hits_returns b hits : filter_hits b hits ≠ OutOfFuel.
Proof.
  induction hits as [|hit hits IH]; [discriminate|]. cbn [filter_hits].
  pose proof (batch_id_match_returns hit b).
  destruct (batch_id_match hit b); cbn; [|discriminate|congruence].
  destruct (filter_hits b hits); cbn; [discriminate|discriminate|congruence].
Qed.

Lemma filter_hits_app b hits1 hits2 :
  filter_hits b (hits1 ++ hits2)
  = (kept1 ← filter_hits b hits1;
     kept2 ← filter_hits b hits2;
     mret (kept1 ++ kept2)).
Proof.
  induction hits1 as [|hit hits1 IH]; cbn [filter_hits app].
  - cbn. destruct (filter_hits b hits2); reflexivity.
  - destruct (batch_id_match hit b) as [keep| |]; cbn; [|reflexivity..].
    rewrite IH. destruct (filter_hits b hits1); cbn; [|reflexivity..].
    destruct (filter_hits b hits2); cbn; [|reflexivity..].
    destruct keep; reflexivity.
Qed.

Lemma filter_hits_raises b hits hit e :
  hit ∈ hits → batch_id_match hit b = Raised e →
  ∃ e', filter_hits b hits = Raised e'.
Proof.
  intros Hin Hraise. induction hits as [|hit' hits IH]; [by apply elem_of_nil in Hin|].
  cbn [filter_hits].
  apply elem_of_cons in Hin as [<-|Hin].
  - rewrite Hraise. cbn. eauto.
  - pose proof (batch_id_match_returns hit' b).
    destruct (batch_id_match hit' b); cbn; [|eauto|congruence].
    destruct (IH Hin) as [e' ->]. cbn. eauto.
Qed.

Section FetchFacts.

Context {M : Type} (mt : MTurk M) (self : MTWorkerMonitor).

(** What [fetch_and_filter_hits] computes: the filter over the pages
    that carry a token; the page without one is left out. *)
Lemma fetch_and_filter_hits_loop_pages m kwargs rs r :
  hit_pages mt m kwargs rs r → ∀ fuel coll, (length rs < fuel)%nat →
  fetch_and_filter_hits_loop mt self fuel m kwargs coll
  = (kept ← filter_hits (batch_id self) (concat (HITs <$> rs));
     mret (coll ++ kept)).
Proof.
  induction 1 as [kwargs Hlast|kwargs tok rs r Htok _ IH]; intros fuel coll Hfuel.
  - destruct fuel as [|fuel]; [cbn in Hfuel; lia|].
    cbn. rewrite Hlast. cbn. by rewrite app_nil_r.
  - destruct fuel as [|fuel]; [cbn in Hfuel; lia|].
    cbn [fetch_and_filter_hits_loop]. rewrite Htok.
    cbn [fmap list_fmap concat]. rewrite filter_hits_app.
    destruct (filter_hits (batch_id self) (HITs (list_hits mt m kwargs)))
      as [kept| |]; cbn; [|reflexivity..].
    rewrite IH by (cbn in Hfuel; lia).
    destruct (filter_hits _ (concat _)); cbn; [|reflexivity..].
    by rewrite app_assoc.
Qed.

Lemma fetch_workers_with_qualification_loop_pages m kwargs rs r :
  worker_pages mt self m kwargs rs r → ∀ fuel ids, (length rs < fuel)%nat →
  fetch_workers_with_qualification_loop mt self fuel m kwargs ids
  = Done (ids ++ concat ((λ resp, QualWorkerId <$> Qualifications resp) <$> rs)).
Proof.
  induction 1 as [kwargs Hlast|kwargs tok rs r Htok _ IH]; intros fuel ids Hfuel.
  - destruct fuel as [|fuel]; [cbn in Hfuel; lia|].
    cbn. rewrite Hlast. by rewrite app_nil_r.
  - destruct fuel as [|fuel]; [cbn in Hfuel; lia|].
    cbn [fetch_workers_with_qualification_loop]. rewrite Htok.
    rewrite IH by (cbn in Hfuel; lia).
    cbn [fmap list_fmap concat]. by rewrite app_assoc.
Qed.

End FetchFacts.

(** C1 at its failing inputs: the tasks of the last response, the one
    without a token, are lost. A listing of one response yields nothing,
    a listing of two yields the in-batch tasks of the first only. *)
Theorem fetch_and_filter_hits_loses_last_page :
  let p := {| HITsNextToken := None; HITs := [Scenario.task] |} in
  let p1 := {| HITsNextToken := Some "p2";
               HITs := [Mock.hit "HIT1" "BatchId:42"; Mock.hit "HIT2" "BatchId:7"] |} in
  let p2 := {| HITsNextToken := None; HITs := [Mock.hit "HIT3" "BatchId:42"] |} in
  (hit_pages Mock.client Scenario.one_page None [] p
   ∧ filter_hits 42 (HITs p) = Done [Scenario.task]
   ∧ ∀ fuel, fetch_and_filter_hits Mock.client Scenario.self (S fuel)
               Scenario.one_page = Done [])
  ∧ (hit_pages Mock.client Scenario.two_pages None [p1] p2
     ∧ filter_hits 42 (HITs p1 ++ HITs p2)
       = Done [Mock.hit "HIT1" "BatchId:42"; Mock.hit "HIT3" "BatchId:42"]
     ∧ ∀ fuel, fetch_and_filter_hits Mock.client Scenario.self (S (S fuel))
                 Scenario.two_pages = Done [Mock.hit "HIT1" "BatchId:42"]).
Proof.
  cbv zeta. repeat split.
  - by apply (hit_pages_last Mock.client Scenario.one_page None).
  - apply (hit_pages_next Mock.client Scenario.two_pages None "p2" [] _ eq_refl).
    by apply (hit_pages_last Mock.client Scenario.two_pages (Some "p2")).
Qed.

(** C2 at its failing inputs: the workers of the last response are lost
    in the same way. *)
Theorem fetch_workers_with_qualification_loses_last_page :
  let p := {| QualificationsNextToken := None;
              Qualifications := [Mock.holder "W1"] |} in
  let p1 := {| QualificationsNextToken := Some "p2";
               Qualifications := [Mock.holder "W1"; Mock.holder "W2"] |} in
  let p2 := {| QualificationsNextToken := None;
               Qualifications := [Mock.holder "W3"] |} in
  (worker_pages Mock.client Scenario.self Scenario.one_page None [] p
   ∧ ∀ fuel, fetch_workers_with_qualification Mock.client Scenario.self (S fuel)
               Scenario.one_page = Done [])
  ∧ (worker_pages Mock.client Scenario.self Scenario.two_pages None [p1] p2
     ∧ ∀ fuel, fetch_workers_with_qualification Mock.client Scenario.self
                 (S (S fuel)) Scenario.two_pages = Done ["W1"; "W2"]).
Proof.
  cbv zeta. repeat split.
  - by apply (worker_pages_last Mock.client Scenario.self Scenario.one_page None).
  - apply (worker_pages_next Mock.client Scenario.self Scenario.two_pages
             None "p2" [] _ eq_refl).
    by apply (worker_pages_last Mock.client Scenario.self Scenario.two_pages (Some "p2")).
Qed.

(** C3: a response without a continuation token ends either loop with the
    accumulator as it stands, the records of that response unread; when it
    is the first response, the fetcher returns the empty list. *)
Theorem tokenless_response_discarded {M : Type} (mt : MTurk M)
    (self : MTWorkerMonitor) (m : M) :
  (∀ fuel kwargs coll,
     HITsNextToken (list_hits mt m kwargs) = None →
     fetch_and_filter_hits_loop mt self (S fuel) m kwargs coll = Done coll)
  ∧ (∀ fuel kwargs worker_ids,
       QualificationsNextToken
         (list_workers_with_qualification_type mt m
            (blacklist_qualification_id self) "Granted" kwargs) = None →
       fetch_workers_with_qualification_loop mt self (S fuel) m kwargs worker_ids
       = Done worker_ids)
  ∧ (∀ fuel,
       HITsNextToken (list_hits mt m None) = None →
       fetch_and_filter_hits mt self (S fuel) m = Done [])
  ∧ (∀ fuel,
       QualificationsNextToken
         (list_workers_with_qualification_type mt m
            (blacklist_qualification_id self) "Granted" None) = None →
       fetch_workers_with_qualification mt self (S fuel) m = Done []).
Proof.
  repeat split; intros; cbn.
  - by rewrite H.
  - by rewrite H.
  - unfold fetch_and_filter_hits. cbn. by rewrite H.
  - unfold fetch_workers_with_qualification. cbn. by rewrite H.
Qed.

Lemma tokenless_response_discarded_witness :
  HITs (list_hits Mock.client Scenario.one_page None) = [Scenario.task]
  ∧ fetch_and_filter_hits Mock.client Scenario.self 1 Scenario.one_page = Done []
  ∧ fetch_workers_with_qualification Mock.client Scenario.self 1 Scenario.one_page
    = Done [].
Proof.
  destruct (tokenless_response_discarded Mock.client Scenario.self Scenario.one_page)
    as (_ & _ & Hhits & Hworkers).
  split; [reflexivity|]. split; [apply Hhits | apply Hworkers]; reflexivity.
Defined.

(** C7 at its failing inputs: the filter raises on the task [untagged],
    whose annotation holds no token, yet on the last response of a
    listing that task is never handed to the filter. Alone on the only
    response it leaves the fetcher with the empty list and the cycle with
    a warning and a sleep; after a response with an in-batch task it
    leaves the fetcher with that task. Nothing is raised. *)
Theorem missing_token_on_last_page_is_dropped :
  let p := {| HITsNextToken := None; HITs := [Scenario.untagged] |} in
  let p1 := {| HITsNextToken := Some "p2"; HITs := [Scenario.task] |} in
  (lacks_token Scenario.untagged
   ∧ ∀ b, batch_id_match Scenario.untagged b
          = Raised (AttributeError "'NoneType' object has no attribute 'group'"))
  ∧ (hit_pages Mock.client Scenario.untagged_last None [] p
     ∧ ∀ fuel,
         fetch_and_filter_hits Mock.client Scenario.self (S fuel)
           Scenario.untagged_last = Done []
         ∧ cycle Mock.client Scenario.self (S fuel) Scenario.untagged_last
           = Done (Scenario.untagged_last, [Warn no_hits_warning; Sleep 10]))
  ∧ (hit_pages Mock.client Scenario.untagged_after None [p1] p
     ∧ ∀ fuel,
         fetch_and_filter_hits Mock.client Scenario.self (S (S fuel))
           Scenario.untagged_after = Done [Scenario.task]
         ∧ cycle Mock.client Scenario.self (S (S fuel)) Scenario.untagged_after
           = Done (Scenario.untagged_after, [Sleep 10])).
Proof.
  cbv zeta.
  assert (Hlack : lacks_token Scenario.untagged)
    by (apply re_search_None; reflexivity).
  split; [split; [exact Hlack|]|split; split].
  - intros b. by rewrite (batch_id_match_lacking _ _ Hlack).
  - by apply (hit_pages_last Mock.client Scenario.untagged_last None).
  - intros fuel. split; reflexivity.
  - apply (hit_pages_next Mock.client Scenario.untagged_after None "p2" [] _ eq_refl).
    by apply (hit_pages_last Mock.client Scenario.untagged_after (Some "p2")).
  - intros fuel. split; reflexivity.
Qed.

(** X22: a task without a token makes the filter raise, [KeyError] when
    the annotation is absent and [AttributeError] when it holds no token;
    when such a task is on a response the fetcher reads, one that carries
    a continuation token, the fetcher raises, and so does the cycle once
    the blacklist is fetched. *)
Theorem missing_token_is_fatal (hit : HIT) :
  lacks_token hit →
  (∀ b, batch_id_match hit b
        = match RequesterAnnotation hit with
          | None => Raised (KeyError "RequesterAnnotation")
          | Some _ =>
              Raised (AttributeError "'NoneType' object has no attribute 'group'")
          end)
  ∧ (∀ {M : Type} (mt : MTurk M) (self : MTWorkerMonitor) m rs r fuel,
       hit_pages mt m None rs r → hit ∈ concat (HITs <$> rs) →
       (length rs < fuel)%nat →
       ∃ e, fetch_and_filter_hits mt self fuel m = Raised e
            ∧ ∀ worker_ids,
                fetch_workers_with_qualification mt self fuel m = Done worker_ids →
                cycle mt self fuel m = Raised e).
Proof.
  intros Hlack. split; [intros b; by apply batch_id_match_lacking|].
  intros M mt self m rs r fuel Hpages Hin Hfuel.
  assert (∃ e, batch_id_match hit (batch_id self) = Raised e) as [e He].
  { rewrite (batch_id_match_lacking _ _ Hlack). destruct (RequesterAnnotation hit); eauto. }
  destruct (filter_hits_raises _ _ _ _ Hin He) as [e' He'].
  exists e'. unfold cycle, fetch_and_filter_hits.
  rewrite (fetch_and_filter_hits_loop_pages _ _ _ _ _ _ Hpages) by assumption.
  rewrite He'. split; [reflexivity|].
  intros worker_ids ->. reflexivity.
Qed.

Lemma missing_token_is_fatal_witness :
  batch_id_match Scenario.untagged 42
  = Raised (AttributeError "'NoneType' object has no attribute 'group'")
  ∧ ∃ e, fetch_and_filter_hits Mock.client Scenario.self 2 Scenario.untagged_listing
         = Raised e
         ∧ cycle Mock.client Scenario.self 2 Scenario.untagged_listing = Raised e.
Proof.
  assert (Hlack : lacks_token Scenario.untagged)
    by (apply re_search_None; reflexivity).
  destruct (missing_token_is_fatal Scenario.untagged Hlack) as [Hmatch Hfetch].
  split; [apply Hmatch|].
  destruct (Hfetch _ Mock.client Scenario.self Scenario.untagged_listing
              [{| HITsNextToken := Some "p2";
                  HITs := [Scenario.task; Scenario.untagged] |}]
              {| HITsNextToken := None; HITs := [] |} 2%nat) as (e & He & Hcycle).
  - apply (hit_pages_next Mock.client Scenario.untagged_listing None "p2" [] _ eq_refl).
    by apply (hit_pages_last Mock.client Scenario.untagged_listing (Some "p2")).
  - cbn. apply elem_of_cons. right. apply elem_of_cons. by left.
  - cbn. lia.
  - exists e. split; [exact He | by apply (Hcycle [])].
Defined.

Section LoopFacts.

Context {M : Type} (mt : MTurk M) (self : MTWorkerMonitor).

Lemma fetch_workers_with_qualification_loop_mono fuel fuel' m kwargs ids ws :
  fetch_workers_with_qualification_loop mt self fuel m kwargs ids = Done ws →
  (fuel ≤ fuel')%nat →
  fetch_workers_with_qualification_loop mt self fuel' m kwargs ids = Done ws.
Proof.
  revert fuel' kwargs ids.
  induction fuel as [|fuel IH]; intros fuel' kwargs ids; [discriminate|].
  intros Hrun Hle. destruct fuel' as [|fuel']; [lia|].
  cbn [fetch_workers_with_qualification_loop] in *.
  destruct (QualificationsNextToken _); [|assumption].
  apply IH; [assumption | lia].
Qed.

End LoopFacts.

(** C9: two calls of [fetch_workers_with_qualification] on one marketplace
    state that both return, however long each polls, return the same
    worker identifiers, as lists and as sets; and once a call returns,
    a second call on that state returns too. *)
Theorem fetch_workers_with_qualification_idempotent {M : Type} (mt : MTurk M)
    (self : MTWorkerMonitor) (m : M) (fuel1 fuel2 : nat) (ws1 : list string) :
  fetch_workers_with_qualification mt self fuel1 m = Done ws1 →
  fetch_workers_with_qualification mt self (max fuel1 fuel2) m = Done ws1
  ∧ ∀ ws2, fetch_workers_with_qualification mt self fuel2 m = Done ws2 →
           ws2 = ws1 ∧ (list_to_set ws2 : gset string) = list_to_set ws1.
Proof.
  unfold fetch_workers_with_qualification. intros H1.
  split.
  - eapply fetch_workers_with_qualification_loop_mono; [exact H1 | lia].
  - intros ws2 H2.
    pose proof (fetch_workers_with_qualification_loop_mono mt self _
                  (max fuel1 fuel2) _ _ _ _ H1 ltac:(lia)) as H1'.
    pose proof (fetch_workers_with_qualification_loop_mono mt self _
                  (max fuel1 fuel2) _ _ _ _ H2 ltac:(lia)) as H2'.
    rewrite H1' in H2'. injection H2' as ->. done.
Qed.

Lemma fetch_workers_with_qualification_idempotent_witness :
  fetch_workers_with_qualification Mock.client Scenario.self 7 Scenario.two_pages
  = Done ["W1"; "W2"].
Proof.
  apply (fetch_workers_with_qualification_idempotent Mock.client Scenario.self
           Scenario.two_pages 2 7 ["W1"; "W2"]).
  reflexivity.
Defined.

(** ** The tally and the cycle *)

Lemma foldl_preserves {A B : Type} (P : A → Prop) (f : A → B → A) :
  (∀ a b, P a → P (f a b)) → ∀ l a, P a → P (foldl f a l).
Proof.
  intros Hstep l. induction l as [|b l IH]; intros a Ha; [assumption|].
  cbn. apply IH, Hstep, Ha.
Qed.

Lemma grants_app evs1 evs2 : grants (evs1 ++ evs2) = grants evs1 ++ grants evs2.
Proof. apply omap_app. Qed.

Section TallyFacts.

Context {M : Type} (mt : MTurk M) (self : MTWorkerMonitor).

Lemma count_of_insert (c : gmap string Z) w n : count_of (<[w := n]> c) w = n.
Proof. unfold count_of. by rewrite lookup_insert_eq. Qed.

(** The two ways out of the body of the inner loop. *)
Lemma tally_assignment_cases st a :
  let w := WorkerId a in
  let st' := tally_assignment mt self st a in
  worker_counter st'
  = <[w := count_of (worker_counter st) w + 1]> (worker_counter st)
  ∧ (((max_hits self ≤ count_of (worker_counter st) w + 1)
      ∧ (w ∉ blacklisted_workers st)
      ∧ blacklisted_workers st' = {[w]} ∪ blacklisted_workers st
      ∧ market st' = associate_qualification_with_worker mt (market st) w
                       (blacklist_qualification_id self) false
      ∧ trace st' = trace st ++
                    [Grant w (blacklist_qualification_id self) false;
                     LogInfo ("worker '" +:+ w +:+ "' is blacklisted.")])
     ∨ (¬ ((max_hits self ≤ count_of (worker_counter st) w + 1)
           ∧ w ∉ blacklisted_workers st)
        ∧ blacklisted_workers st' = blacklisted_workers st
        ∧ market st' = market st
        ∧ trace st' = trace st)).
Proof.
  cbv zeta. unfold tally_assignment. rewrite count_of_insert.
  destruct (bool_decide (max_hits self ≤ _)) eqn:Hmax;
    [destruct (bool_decide (WorkerId a ∉ _)) eqn:Hin|]; cbn [andb].
  - apply bool_decide_eq_true in Hmax, Hin. split; [reflexivity|]. left. auto.
  - apply bool_decide_eq_false in Hin. split; [reflexivity|]. right.
    split; [tauto | auto].
  - apply bool_decide_eq_false in Hmax. split; [reflexivity|]. right.
    split; [tauto | auto].
Qed.

Lemma tally_assignment_granted_once bl0 st a :
  granted_once bl0 st → granted_once bl0 (tally_assignment mt self st a).
Proof.
  intros (Hnodup & Hin & Hsub).
  destruct (tally_assignment_cases st a)
    as [_ [(_ & Hw & Hbl & _ & Htr)|(_ & Hbl & _ & Htr)]];
    unfold granted_once; rewrite Hbl, Htr; [|auto].
  rewrite grants_app. cbn [grants omap]. split; [|split].
  - apply NoDup_app. split; [assumption|]. split; [|apply NoDup_singleton].
    intros w Hw1 Hw2%list_elem_of_singleton. subst w.
    by apply Hin in Hw1 as [? _].
  - intros w [Hw1|Hw1%list_elem_of_singleton]%elem_of_app.
    + apply Hin in Hw1 as [? ?]. split; [|assumption].
      apply elem_of_union. by right.
    + subst w. split.
      * apply elem_of_union. left. by apply elem_of_singleton.
      * intros Hbl0. apply Hw, Hsub, Hbl0.
  - intros w Hbl0. apply elem_of_union. right. apply Hsub, Hbl0.
Qed.

Lemma tally_phase_granted_once m bl0 hits :
  granted_once bl0 (tally_phase mt self m bl0 hits).
Proof.
  unfold tally_phase. apply foldl_preserves.
  - intros st hit Hst. unfold tally_hit. apply foldl_preserves; [|assumption].
    intros st' a. apply tally_assignment_granted_once.
  - unfold granted_once. cbn. repeat split; [constructor|set_solver..].
Qed.

End TallyFacts.

(** C4: with [max_hits=3], one in-batch task, the assignments of workers
    [A,A,B,A,C,B] and nobody blacklisted, the tally counts 3, 2 and 1 and
    its only grant is the one for [A]. In every state of a tally, the body
    run on an assignment of worker [w] adds one to the count of [w], and
    grants [w] the qualification exactly when the new count has reached
    [max_hits] and [w] is not in the blacklist as extended so far. *)
Theorem grant_when_count_reaches_max_hits :
  (let st := tally_phase Mock.client Scenario.self Scenario.tallied ∅
               [Scenario.task] in
   trace st = [Grant "A" "QUAL" false; LogInfo "worker 'A' is blacklisted."]
   ∧ grants (trace st) = ["A"]
   ∧ Mock.granted (market st) = [("A", "QUAL")]
   ∧ count_of (worker_counter st) "A" = 3
   ∧ count_of (worker_counter st) "B" = 2
   ∧ count_of (worker_counter st) "C" = 1)
  ∧ ∀ {M : Type} (mt : MTurk M) (self : MTWorkerMonitor) (st : tally) a,
      let w := WorkerId a in
      let st' := tally_assignment mt self st a in
      count_of (worker_counter st') w = count_of (worker_counter st) w + 1
      ∧ (((max_hits self ≤ count_of (worker_counter st') w)
          ∧ w ∉ blacklisted_workers st) →
         grants (trace st') = grants (trace st) ++ [w]
         ∧ w ∈ blacklisted_workers st')
      ∧ (¬ ((max_hits self ≤ count_of (worker_counter st') w)
            ∧ w ∉ blacklisted_workers st) →
         trace st' = trace st
         ∧ blacklisted_workers st' = blacklisted_workers st).
Proof.
  split; [cbv zeta; vm_compute; repeat split|].
  intros M mt self st a. cbv zeta.
  destruct (tally_assignment_cases mt self st a) as [Hcount Hcases].
  cbv zeta in Hcount, Hcases.
  rewrite Hcount, count_of_insert. split; [reflexivity|].
  destruct Hcases as [(Hmax & Hw & Hbl & _ & Htr)|(Hnot & Hbl & _ & Htr)].
  - split; [|tauto]. intros _. rewrite Htr, Hbl, grants_app. split; [reflexivity|].
    apply elem_of_union. left. by apply elem_of_singleton.
  - split; [tauto|]. intros _. auto.
Qed.

Lemma grant_when_count_reaches_max_hits_witness :
  let st := {| worker_counter := {["A" := 2]}; blacklisted_workers := ∅;
               market := Scenario.tallied; trace := [] |} in
  let st' := tally_assignment Mock.client Scenario.self st (Mock.submitted "A") in
  grants (trace st') = ["A"] ∧ "A" ∈ blacklisted_workers st'.
Proof.
  cbv zeta.
  destruct grant_when_count_reaches_max_hits as [_ Hstep].
  destruct (Hstep _ Mock.client Scenario.self
              {| worker_counter := {["A" := 2]}; blacklisted_workers := ∅;
                 market := Scenario.tallied; trace := [] |}
              (Mock.submitted "A")) as (_ & Hgrant & _).
  apply Hgrant. split; [vm_compute; discriminate | apply not_elem_of_empty].
Defined.

(** C5: in a cycle that runs to its sleep no worker is granted twice, and
    no worker of the blacklist the cycle fetched at its start is granted. *)
Theorem at_most_one_grant_per_cycle {M : Type} (mt : MTurk M)
    (self : MTWorkerMonitor) (fuel : nat) (m m' : M) (evs : list event)
    (worker_ids : list string) :
  cycle mt self fuel m = Done (m', evs) →
  fetch_workers_with_qualification mt self fuel m = Done worker_ids →
  NoDup (grants evs) ∧ ∀ w, w ∈ worker_ids → w ∉ grants evs.
Proof.
  unfold cycle. intros Hcycle Hws. rewrite Hws in Hcycle. cbn in Hcycle.
  destruct (fetch_and_filter_hits mt self fuel m) as [hits| |]; [|discriminate..].
  cbn in Hcycle. unfold time_sleep in Hcycle.
  destruct (sleep_time self <? 0); [discriminate|].
  cbn in Hcycle. injection Hcycle as _ <-.
  destruct (tally_phase_granted_once mt self m (list_to_set worker_ids) hits)
    as (Hnodup & Hin & _).
  assert (Hgrants : grants ((if (length hits =? 0)%nat
                             then [Warn no_hits_warning] else [])
                            ++ trace (tally_phase mt self m (list_to_set worker_ids) hits)
                            ++ [Sleep (sleep_time self)])
                    = grants (trace (tally_phase mt self m
                                       (list_to_set worker_ids) hits))).
  { rewrite !grants_app. destruct (length hits =? 0)%nat; cbn; by rewrite app_nil_r. }
  rewrite Hgrants. split; [assumption|].
  intros w Hw Hgranted. apply Hin in Hgranted as [_ Hnot].
  apply Hnot, elem_of_list_to_set, Hw.
Qed.

Lemma at_most_one_grant_per_cycle_witness :
  ∃ m' evs,
    cycle Mock.client Scenario.self 3 Scenario.busy = Done (m', evs)
    ∧ grants evs = ["A"]
    ∧ NoDup (grants evs) ∧ ∀ w, w ∈ ["W"] → w ∉ grants evs.
Proof.
  eexists _, _. split; [vm_compute; reflexivity|]. split; [reflexivity|].
  eapply (at_most_one_grant_per_cycle Mock.client Scenario.self 3 Scenario.busy).
  - vm_compute. reflexivity.
  - reflexivity.
Defined.




(** [run] on the [busy] marketplace, cut after one turn: the blacklist is
    logged, then [A] alone is granted the qualification. *)
Example run_busy_one_cycle :
  snd <$> (match run Mock.client Scenario.self 1 3 Scenario.busy with
           | Done r => Some r
           | _ => None
           end)
  = Some [LogInfo "The initial blacklist has the following workers:";
          LogInfo "--- 'W' ---";
          LogInfo "Starting to monitor workers for 'batch_id'=42 with 10 (s) sleep intervals.";
          Grant "A" "QUAL" false;
          LogInfo "worker 'A' is blacklisted.";
          Sleep 10].
Proof. vm_compute. reflexivity. Qed.

(** * Further facts *)

(** ** The search, the split and the filter *)

Lemma str_app_assoc s t u : (s +:+ t) +:+ u = s +:+ t +:+ u.
Proof.
  induction s as [|c s IH]; [reflexivity|].
  rewrite !str_app_cons, IH. reflexivity.
Qed.

Lemma take_digits_split s :
  ∃ post, s = Str.take_digits s +:+ post
          ∧ Str.take_digits post = ""
          ∧ Str.all_digits (Str.take_digits s) = true.
Proof.
  induction s as [|c s (post & Hs & Hpost & Hall)].
  - exists "". auto.
  - cbn [Str.take_digits]. destruct (Str.is_digit c) eqn:Hc.
    + exists post. rewrite str_app_cons, <- Hs. cbn [Str.all_digits].
      rewrite Hc, Hall. auto.
    + exists (String c s). cbn [Str.take_digits]. rewrite Hc. auto.
Qed.

(** The match of [re.search]: where it lies and what it holds. *)
Lemma re_search_Some s m :
  Str.re_search s = Some m →
  ∃ pre ds post,
    s = pre +:+ m +:+ post ∧ m = "BatchId:" +:+ ds
    ∧ ds ≠ "" ∧ Str.all_digits ds = true
    ∧ Str.take_digits post = "" ∧ ¬ has_token pre.
Proof.
  induction s as [|c s IH]; rewrite re_search_unfold.
  - destruct (Str.match_here "") eqn:E; [|discriminate].
    apply match_here_Some in E as (d & rest & _ & E & _). discriminate E.
  - destruct (Str.match_here (String c s)) as [m'|] eqn:E.
    + intros [= <-].
      apply match_here_Some in E as (d & rest & Hd & Hs & Hm).
      destruct (take_digits_split (String d rest)) as (post & Hrest & Hpost & Hall).
      exists "", (Str.take_digits (String d rest)), post.
      rewrite str_app_nil_l, Hm, str_app_assoc, <- Hrest.
      repeat split; try assumption; [|exact has_token_empty].
      cbn [Str.take_digits]. rewrite Hd. discriminate.
    + intros (pre & ds & post & Hs & Hm & Hne & Hall & Hpost & Hpre)%IH.
      exists (String c pre), ds, post. rewrite str_app_cons, <- Hs.
      repeat split; try assumption.
      intros (pre' & d & post' & Hd & Htok).
      destruct pre' as [|c' pre'].
      * rewrite str_app_nil_l in Htok.
        assert (Hhead : String c s
                        = "BatchId:" +:+ String d (post' +:+ m +:+ post)).
        { rewrite Hs, <- str_app_cons, Htok, str_app_assoc.
          rewrite <- (str_app_cons d post'). reflexivity. }
        rewrite Hhead, (match_here_token _ _ Hd) in E. discriminate.
      * rewrite str_app_cons in Htok. injection Htok as _ Htok.
        apply Hpre. exists pre', d, post'. auto.
Qed.

Lemma digit_value_nonneg c : Str.is_digit c = true → 0 ≤ Str.digit_value c.
Proof.
  unfold Str.is_digit, Str.digit_value.
  intros [H _]%andb_true_iff. apply Nat.leb_le in H. lia.
Qed.

Lemma int_digits_nonneg acc s n :
  0 ≤ acc → Str.int_digits acc s = Some n → 0 ≤ n.
Proof.
  revert acc; induction s as [|c s IH]; intros acc Hacc; cbn [Str.int_digits].
  - intros [= <-]. assumption.
  - destruct (Str.is_digit c) eqn:Hc; [|discriminate].
    apply IH. pose proof (digit_value_nonneg _ Hc). lia.
Qed.

(** What the filter does on an annotation that holds a token. *)
Lemma batch_id_match_token hit ann :
  RequesterAnnotation hit = Some ann → has_token ann →
  ∃ n, 0 ≤ n ∧ ∀ b, batch_id_match hit b = Done (n =? b).
Proof.
  intros Hann Htok. unfold batch_id_match. rewrite Hann.
  destruct (Str.re_search ann) as [m|] eqn:E;
    [|by apply re_search_None in E].
  apply re_search_Some in E as (_ & ds & _ & _ & -> & Hne & Hall & _).
  destruct (all_digits_int _ Hne Hall) as [n Hn].
  exists n. split.
  - destruct ds; [congruence|]. eapply (int_digits_nonneg 0); [lia | exact Hn].
  - intros b. rewrite last_split_match, Hn by assumption. reflexivity.
Qed.

(** X1: on a task whose annotation holds a token the filter never raises:
    the task has one batch number, not negative, and the filter answers
    whether the target equals it. *)
Theorem batch_id_match_total_on_tokens (hit : HIT) (ann : string) :
  RequesterAnnotation hit = Some ann → has_token ann →
  ∃ n, 0 ≤ n ∧ ∀ b, batch_id_match hit b = Done (n =? b).
Proof. apply batch_id_match_token. Qed.

Lemma batch_id_match_total_on_tokens_witness :
  ∃ n, 0 ≤ n ∧ ∀ b, batch_id_match Scenario.two_tokens b = Done (n =? b).
Proof.
  apply (batch_id_match_total_on_tokens Scenario.two_tokens "BatchId:1;BatchId:2").
  - reflexivity.
  - exists "", "1"%char, ";BatchId:2". split; reflexivity.
Defined.

Lemma re_search_Some_has_token s m : Str.re_search s = Some m → has_token s.
Proof.
  intros Hs. destruct (Str.re_search s) eqn:E; [|discriminate].
  apply re_search_Some in E as (pre & ds & post & -> & -> & Hne & Hall & _).
  destruct ds as [|d ds]; [congruence|].
  cbn [Str.all_digits] in Hall. apply andb_true_iff in Hall as [Hd _].
  exists pre, d, (ds +:+ post). split; [assumption|].
  by rewrite str_app_assoc, (str_app_cons d ds post).
Qed.

(** The two behaviours of the filter on a task. *)
Lemma batch_id_match_cases hit :
  (lacks_token hit ∧ ∃ e, ∀ b, batch_id_match hit b = Raised e)
  ∨ (∃ ann n, RequesterAnnotation hit = Some ann ∧ has_token ann
              ∧ 0 ≤ n ∧ ∀ b, batch_id_match hit b = Done (n =? b)).
Proof.
  destruct (RequesterAnnotation hit) as [ann|] eqn:Hann.
  - destruct (Str.re_search ann) as [m|] eqn:E.
    + right. apply re_search_Some_has_token in E.
      destruct (batch_id_match_token hit ann Hann E) as (n & Hn & Hb).
      exists ann, n. auto.
    + left. assert (Hlack : lacks_token hit).
      { unfold lacks_token. rewrite Hann. by apply re_search_None. }
      split; [assumption|]. eexists. intros b.
      rewrite (batch_id_match_lacking _ _ Hlack), Hann. reflexivity.
  - left. assert (Hlack : lacks_token hit) by (unfold lacks_token; by rewrite Hann).
    split; [assumption|]. eexists. intros b.
    rewrite (batch_id_match_lacking _ _ Hlack), Hann. reflexivity.
Qed.

(** X2: a task is in at most one batch, and in none of negative number:
    when the filter answers true for [a], [a] is not negative and the
    filter answers true for no other target. *)
Theorem batch_id_match_one_batch (hit : HIT) (a : Z) :
  batch_id_match hit a = Done true →
  0 ≤ a ∧ ∀ b, batch_id_match hit b = Done true → b = a.
Proof.
  intros Ha.
  destruct (batch_id_match_cases hit) as [(_ & e & He)|(ann & n & _ & _ & Hn & Hb)].
  - rewrite He in Ha. discriminate.
  - rewrite Hb in Ha. injection Ha as Ha%Z.eqb_eq. subst n.
    split; [assumption|]. intros b. rewrite Hb. intros [= Hab%Z.eqb_eq]. congruence.
Qed.

Lemma batch_id_match_one_batch_witness :
  0 ≤ 42 ∧ ∀ b, batch_id_match Scenario.task b = Done true → b = 42.
Proof. apply (batch_id_match_one_batch Scenario.task 42). reflexivity. Defined.

(** X3: whether the filter raises, and what, does not depend on the
    target: a task that makes it raise for one [batch_id] makes it raise
    the same exception for every other. *)
Theorem batch_id_match_raises_for_all (hit : HIT) (a : Z) (e : exn) :
  batch_id_match hit a = Raised e → ∀ b, batch_id_match hit b = Raised e.
Proof.
  intros Ha b.
  destruct (batch_id_match_cases hit) as [(_ & e' & He)|(ann & n & _ & _ & _ & Hb)].
  - rewrite He in Ha. rewrite He. exact Ha.
  - rewrite Hb in Ha. discriminate.
Qed.

Lemma batch_id_match_raises_for_all_witness :
  batch_id_match Scenario.untagged 42
  = Raised (AttributeError "'NoneType' object has no attribute 'group'").
Proof. apply (batch_id_match_raises_for_all Scenario.untagged 0). reflexivity. Defined.

(** X4: zeros ahead of the batch number do not count: a zero put
    between ["BatchId:"] and the digits of the leftmost token changes no
    answer of the filter. *)
Theorem batch_id_match_leading_zero (hit hit0 : HIT) (pre ds post : string) :
  RequesterAnnotation hit = Some (pre +:+ "BatchId:" +:+ ds +:+ post) →
  RequesterAnnotation hit0 = Some (pre +:+ "BatchId:" +:+ String "0" ds +:+ post) →
  ¬ has_token pre → ds ≠ "" → Str.all_digits ds = true →
  ∀ b, batch_id_match hit0 b = batch_id_match hit b.
Proof.
  intros Hann Hann0 Hpre Hne Hall b.
  destruct ds as [|d ds]; [congruence|].
  assert (Hd : Str.is_digit d = true).
  { cbn [Str.all_digits] in Hall. by apply andb_true_iff in Hall as [? _]. }
  destruct (take_digits_split (String d ds +:+ post)) as (rest & _ & _ & Hrun).
  unfold batch_id_match. rewrite Hann, Hann0.
  rewrite (str_app_cons "0" (String d ds) post).
  rewrite (re_search_leftmost pre "0" _ eq_refl Hpre).
  rewrite (str_app_cons d ds post) in *.
  rewrite (re_search_leftmost pre d _ Hd Hpre).
  change (Str.take_digits (String "0" (String d (ds +:+ post))))
    with (String "0" (Str.take_digits (String d (ds +:+ post)))).
  rewrite !last_split_match;
    [|assumption|cbn [Str.all_digits]; by rewrite Hrun].
  cbn [Str.take_digits]. rewrite Hd. reflexivity.
Qed.

Lemma batch_id_match_leading_zero_witness :
  batch_id_match (Mock.hit "HIT1" "BatchId:042") 42
  = batch_id_match Scenario.task 42.
Proof.
  apply (batch_id_match_leading_zero Scenario.task
           (Mock.hit "HIT1" "BatchId:042") "" "42" "").
  - reflexivity.
  - reflexivity.
  - exact has_token_empty.
  - discriminate.
  - reflexivity.
Defined.

(** X5: [re.search(r'BatchId:\d+', s)] finds nothing exactly when [s]
    holds no token; what it finds is the leftmost token with its whole
    run of digits: no token lies before it and no digit follows it. *)
Theorem re_search_leftmost_longest (s : string) :
  (Str.re_search s = None ↔ ¬ has_token s)
  ∧ ∀ m, Str.re_search s = Some m →
         ∃ pre ds post,
           s = pre +:+ m +:+ post ∧ m = "BatchId:" +:+ ds
           ∧ ds ≠ "" ∧ Str.all_digits ds = true
           ∧ Str.take_digits post = "" ∧ ¬ has_token pre.
Proof. split; [apply re_search_None | apply re_search_Some]. Qed.

Lemma split_nonempty sep s : Str.split sep s ≠ [].
Proof.
  destruct s as [|c s]; cbn [Str.split]; [discriminate|].
  destruct (Ascii.eqb c sep); [discriminate|].
  destruct (Str.split sep s); discriminate.
Qed.

Lemma split_no_sep sep s :
  sep ∉ list_ascii_of_string s → Str.split sep s = [s].
Proof.
  induction s as [|c s IH]; [reflexivity|].
  cbn [list_ascii_of_string Str.split]. intros Hnot.
  apply not_elem_of_cons in Hnot as [Hne Hnot].
  destruct (Ascii.eqb_spec c sep) as [->|_]; [congruence|].
  by rewrite IH.
Qed.

Lemma split_app_sep sep p t :
  ∃ f l, Str.split sep (p +:+ String sep t) = (f :: l) ++ Str.split sep t.
Proof.
  induction p as [|c p (f & l & IH)].
  - rewrite str_app_nil_l. cbn [Str.split]. rewrite Ascii.eqb_refl.
    by exists "", [].
  - rewrite str_app_cons. cbn [Str.split]. rewrite IH.
    destruct (Ascii.eqb c sep).
    + by exists "", (f :: l).
    + by exists (String c f), l.
Qed.

(** X6: [s.split(":")[-1]] never fails for want of a field; it is [s]
    when [s] holds no colon and the text after the last colon when it
    holds one. *)
Theorem split_last_field (s : string) :
  ∃ field, last (Str.split ":" s) = Some field
    ∧ (":"%char ∉ list_ascii_of_string s → field = s)
    ∧ ∀ p t, s = p +:+ String ":" t → ":"%char ∉ list_ascii_of_string t →
             field = t.
Proof.
  destruct (last (Str.split ":" s)) as [field|] eqn:Hlast.
  - exists field. split; [reflexivity|]. split.
    + intros Hs. rewrite (split_no_sep _ _ Hs) in Hlast. by injection Hlast.
    + intros p t -> Ht. destruct (split_app_sep ":" p t) as (f & l & Hsplit).
      rewrite Hsplit, (split_no_sep _ _ Ht), last_snoc in Hlast.
      by injection Hlast.
  - apply last_None in Hlast. by apply split_nonempty in Hlast.
Qed.

Lemma split_last_field_witness :
  ∃ field, last (Str.split ":" "BatchId:42") = Some field ∧ field = "42".
Proof.
  destruct (split_last_field "BatchId:42") as (field & Hlast & _ & Hafter).
  exists field. split; [exact Hlast|].
  apply (Hafter "BatchId" "42"); [reflexivity|].
  cbn. intros H. repeat (apply elem_of_cons in H as [H|H]; [discriminate H|]).
  by apply elem_of_nil in H.
Defined.

Lemma in_batch_true b hit : in_batch b hit = true ↔ batch_id_match hit b = Done true.
Proof.
  unfold in_batch. destruct (batch_id_match hit b) as [[]| |]; split; congruence.
Qed.

Lemma filter_hits_Done b hits kept :
  filter_hits b hits = Done kept ↔
  (∀ hit, hit ∈ hits → ¬ lacks_token hit) ∧ kept = List.filter (in_batch b) hits.
Proof.
  revert kept. induction hits as [|hit hits IH]; intros kept; cbn [filter_hits List.filter].
  - split.
    + intros [= <-]. split; [|reflexivity]. intros hit Hin. by apply elem_of_nil in Hin.
    + intros [_ ->]. reflexivity.
  - unfold in_batch at 1.
    destruct (batch_id_match_cases hit) as [(Hlack & e & He)|(ann & n & Hann & Htok & _ & Hb)].
    + rewrite He. cbn. split; [discriminate|].
      intros [Hall _]. destruct (Hall hit); [apply elem_of_cons; by left | assumption].
    + rewrite Hb. cbn.
      assert (Hhit : ¬ lacks_token hit).
      { unfold lacks_token. rewrite Hann. tauto. }
      destruct (filter_hits b hits) as [rest| |] eqn:Hrest; cbn.
      * destruct (IH rest) as [[Hall ->] _]; [reflexivity|]. split.
        -- intros [= <-]. split; [|by destruct (n =? b)].
           intros h [->|Hin]%elem_of_cons; auto.
        -- intros [_ ->]. by destruct (n =? b).
      * split; [discriminate|]. intros [Hall _].
        destruct (IH (List.filter (in_batch b) hits)) as [_ Hback].
        discriminate Hback. split; [|reflexivity].
        intros h Hin. apply Hall, elem_of_cons. by right.
      * by apply filter_hits_returns in Hrest.
Qed.

(** X7: the comprehension of [fetch_and_filter_hits] returns exactly when
    every task it is given has an annotation with a token, and then with
    the tasks of the batch, in their order, and no other. *)
Theorem filter_hits_keeps_the_batch (b : Z) (hits kept : list HIT) :
  filter_hits b hits = Done kept ↔
  (∀ hit, hit ∈ hits → ¬ lacks_token hit) ∧ kept = List.filter (in_batch b) hits.
Proof. apply filter_hits_Done. Qed.

(** X8: the comprehension stops at the first task that makes the filter
    raise and raises that exception; the tasks after it are not looked at. *)
Theorem filter_hits_first_failure (b : Z) (before after : list HIT)
    (hit : HIT) (e : exn) :
  (∀ h, h ∈ before → ¬ lacks_token h) →
  batch_id_match hit b = Raised e →
  filter_hits b (before ++ hit :: after) = Raised e.
Proof.
  intros Hbefore Hraise. rewrite filter_hits_app.
  destruct (filter_hits_Done b before (List.filter (in_batch b) before)) as [_ ->];
    [|by split].
  cbn. rewrite Hraise. reflexivity.
Qed.

Lemma filter_hits_first_failure_witness :
  filter_hits 42 ([Scenario.task] ++ Scenario.untagged
                    :: [{| HITId := "HIT6"; RequesterAnnotation := None |}])
  = Raised (AttributeError "'NoneType' object has no attribute 'group'").
Proof.
  apply filter_hits_first_failure; [|reflexivity].
  intros h ->%list_elem_of_singleton Hlack.
  apply Hlack. exists "", "4"%char, "2". split; reflexivity.
Defined.

(** ** The fetchers, further *)

Section FetchFurther.

Context {M : Type} (mt : MTurk M) (self : MTWorkerMonitor).

Lemma fetch_and_filter_hits_loop_in_batch fuel m kwargs coll kept :
  fetch_and_filter_hits_loop mt self fuel m kwargs coll = Done kept →
  (∀ hit, hit ∈ coll → batch_id_match hit (batch_id self) = Done true) →
  ∀ hit, hit ∈ kept → batch_id_match hit (batch_id self) = Done true.
Proof.
  revert kwargs coll. induction fuel as [|fuel IH]; intros kwargs coll; [discriminate|].
  cbn [fetch_and_filter_hits_loop].
  destruct (HITsNextToken (list_hits mt m kwargs)) as [tok|].
  - destruct (filter_hits (batch_id self) (HITs (list_hits mt m kwargs)))
      as [page| |] eqn:Hpage; cbn; [|discriminate..].
    intros Hrun Hcoll. apply (IH _ _ Hrun).
    intros hit [Hin|Hin]%elem_of_app; [by apply Hcoll|].
    apply filter_hits_Done in Hpage as [_ ->].
    apply list_elem_of_In, filter_In in Hin as [_ Hin]. by apply in_batch_true.
  - intros [= <-] Hcoll. exact Hcoll.
Qed.

Lemma fetch_and_filter_hits_loop_diverges (P : option string → Prop) m :
  (∀ kwargs, P kwargs →
     ∃ tok, HITsNextToken (list_hits mt m kwargs) = Some tok ∧ P (Some tok)
            ∧ ∀ hit, hit ∈ HITs (list_hits mt m kwargs) → ¬ lacks_token hit) →
  ∀ fuel kwargs coll, P kwargs →
    fetch_and_filter_hits_loop mt self fuel m kwargs coll = OutOfFuel.
Proof.
  intros Hstep fuel. induction fuel as [|fuel IH]; intros kwargs coll HP; [reflexivity|].
  destruct (Hstep kwargs HP) as (tok & Htok & HP' & Hhits).
  cbn [fetch_and_filter_hits_loop]. rewrite Htok.
  destruct (filter_hits_Done (batch_id self) (HITs (list_hits mt m kwargs))
              (List.filter (in_batch (batch_id self)) (HITs (list_hits mt m kwargs))))
    as [_ ->]; [|by split].
  cbn. by apply IH.
Qed.

Lemma fetch_workers_with_qualification_loop_diverges (P : option string → Prop) m :
  (∀ kwargs, P kwargs →
     ∃ tok, QualificationsNextToken
              (list_workers_with_qualification_type mt m
                 (blacklist_qualification_id self) "Granted" kwargs) = Some tok
            ∧ P (Some tok)) →
  ∀ fuel kwargs ids, P kwargs →
    fetch_workers_with_qualification_loop mt self fuel m kwargs ids = OutOfFuel.
Proof.
  intros Hstep fuel. induction fuel as [|fuel IH]; intros kwargs ids HP; [reflexivity|].
  destruct (Hstep kwargs HP) as (tok & Htok & HP').
  cbn [fetch_workers_with_qualification_loop]. rewrite Htok. by apply IH.
Qed.

End FetchFurther.

(** X9: over a listing that ends, [fetch_and_filter_hits] is the
    comprehension run on the tasks of the responses that carry a token, in
    the order of the responses: it returns their in-batch tasks, or raises
    what the first task without a token makes the filter raise. *)
Theorem fetch_and_filter_hits_of_pages {M : Type} (mt : MTurk M)
    (self : MTWorkerMonitor) (m : M) (rs : list ListHITsResponse)
    (r : ListHITsResponse) (fuel : nat) :
  hit_pages mt m None rs r → (length rs < fuel)%nat →
  fetch_and_filter_hits mt self fuel m
  = filter_hits (batch_id self) (concat (HITs <$> rs)).
Proof.
  intros Hpages Hfuel. unfold fetch_and_filter_hits.
  rewrite (fetch_and_filter_hits_loop_pages _ _ _ _ _ _ Hpages) by assumption.
  destruct (filter_hits _ _); reflexivity.
Qed.

Lemma fetch_and_filter_hits_of_pages_witness :
  fetch_and_filter_hits Mock.client Scenario.self 2 Scenario.two_pages
  = filter_hits 42 [Mock.hit "HIT1" "BatchId:42"; Mock.hit "HIT2" "BatchId:7"].
Proof.
  apply (fetch_and_filter_hits_of_pages Mock.client Scenario.self Scenario.two_pages
           [{| HITsNextToken := Some "p2";
               HITs := [Mock.hit "HIT1" "BatchId:42"; Mock.hit "HIT2" "BatchId:7"] |}]
           {| HITsNextToken := None; HITs := [Mock.hit "HIT3" "BatchId:42"] |} 2).
  - apply (hit_pages_next Mock.client Scenario.two_pages None "p2" [] _ eq_refl).
    by apply (hit_pages_last Mock.client Scenario.two_pages (Some "p2")).
  - cbn. lia.
Defined.

(** X10: every task [fetch_and_filter_hits] returns is in the batch: the
    filter answers true for it. *)
Theorem fetch_and_filter_hits_only_batch {M : Type} (mt : MTurk M)
    (self : MTWorkerMonitor) (fuel : nat) (m : M) (kept : list HIT) :
  fetch_and_filter_hits mt self fuel m = Done kept →
  ∀ hit, hit ∈ kept → batch_id_match hit (batch_id self) = Done true.
Proof.
  intros Hrun. eapply fetch_and_filter_hits_loop_in_batch; [exact Hrun|].
  intros hit Hin. by apply elem_of_nil in Hin.
Qed.

Lemma fetch_and_filter_hits_only_batch_witness :
  fetch_and_filter_hits Mock.client Scenario.self 2 Scenario.two_pages
  = Done [Mock.hit "HIT1" "BatchId:42"]
  ∧ batch_id_match (Mock.hit "HIT1" "BatchId:42") 42 = Done true.
Proof.
  split; [reflexivity|].
  apply (fetch_and_filter_hits_only_batch Mock.client Scenario.self 2
           Scenario.two_pages [Mock.hit "HIT1" "BatchId:42"]).
  - reflexivity.
  - by apply list_elem_of_singleton.
Defined.

(** X11: [fetch_and_filter_hits] has no bound on its polling: when every
    response it can reach carries a continuation token and holds only
    tasks with a token, it does not return, whatever the number of
    requests it is allowed. *)
Theorem fetch_and_filter_hits_never_returns {M : Type} (mt : MTurk M)
    (self : MTWorkerMonitor) (m : M) (P : option string → Prop) :
  P None →
  (∀ kwargs, P kwargs →
     ∃ tok, HITsNextToken (list_hits mt m kwargs) = Some tok ∧ P (Some tok)
            ∧ ∀ hit, hit ∈ HITs (list_hits mt m kwargs) → ¬ lacks_token hit) →
  ∀ fuel, fetch_and_filter_hits mt self fuel m = OutOfFuel.
Proof.
  intros HP Hstep fuel.
  by apply (fetch_and_filter_hits_loop_diverges mt self P m Hstep).
Qed.

Lemma fetch_and_filter_hits_never_returns_witness :
  fetch_and_filter_hits Mock.client Scenario.self 1000 Scenario.looping
  = OutOfFuel.
Proof.
  apply (fetch_and_filter_hits_never_returns Mock.client Scenario.self
           Scenario.looping (λ kwargs, kwargs = None ∨ kwargs = Some "p1")).
  - by left.
  - intros kwargs [->| ->]; exists "p1"; (split; [reflexivity|]); (split; [by right|]).
    + intros hit ->%list_elem_of_singleton Hlack.
      apply Hlack. exists "", "4"%char, "2". split; reflexivity.
    + intros hit Hin. by apply elem_of_nil in Hin.
Defined.

(** X12: over a listing that ends, [fetch_workers_with_qualification]
    returns the worker identifiers of the responses that carry a token, in
    the order of the responses and of their entries, repeated entries kept. *)
Theorem fetch_workers_with_qualification_of_pages {M : Type} (mt : MTurk M)
    (self : MTWorkerMonitor) (m : M) (rs : list ListWorkersResponse)
    (r : ListWorkersResponse) (fuel : nat) :
  worker_pages mt self m None rs r → (length rs < fuel)%nat →
  fetch_workers_with_qualification mt self fuel m
  = Done (concat ((λ resp, QualWorkerId <$> Qualifications resp) <$> rs)).
Proof.
  intros Hpages Hfuel. unfold fetch_workers_with_qualification.
  by rewrite (fetch_workers_with_qualification_loop_pages _ _ _ _ _ _ Hpages).
Qed.

Lemma fetch_workers_with_qualification_of_pages_witness :
  fetch_workers_with_qualification Mock.client Scenario.self 2 Scenario.two_pages
  = Done ["W1"; "W2"].
Proof.
  apply (fetch_workers_with_qualification_of_pages Mock.client Scenario.self
           Scenario.two_pages
           [{| QualificationsNextToken := Some "p2";
               Qualifications := [Mock.holder "W1"; Mock.holder "W2"] |}]
           {| QualificationsNextToken := None;
              Qualifications := [Mock.holder "W3"] |} 2).
  - apply (worker_pages_next Mock.client Scenario.self Scenario.two_pages
             None "p2" [] _ eq_refl).
    by apply (worker_pages_last Mock.client Scenario.self Scenario.two_pages (Some "p2")).
  - cbn. lia.
Defined.

(** X13: [fetch_workers_with_qualification] has no bound on its polling
    either: when every response it can reach carries a continuation token
    it does not return. *)
Theorem fetch_workers_with_qualification_never_returns {M : Type} (mt : MTurk M)
    (self : MTWorkerMonitor) (m : M) (P : option string → Prop) :
  P None →
  (∀ kwargs, P kwargs →
     ∃ tok, QualificationsNextToken
              (list_workers_with_qualification_type mt m
                 (blacklist_qualification_id self) "Granted" kwargs) = Some tok
            ∧ P (Some tok)) →
  ∀ fuel, fetch_workers_with_qualification mt self fuel m = OutOfFuel.
Proof.
  intros HP Hstep fuel.
  by apply (fetch_workers_with_qualification_loop_diverges mt self P m Hstep).
Qed.

Lemma fetch_workers_with_qualification_never_returns_witness :
  fetch_workers_with_qualification Mock.client Scenario.self 1000
    Scenario.looping = OutOfFuel.
Proof.
  apply (fetch_workers_with_qualification_never_returns Mock.client Scenario.self
           Scenario.looping (λ kwargs, kwargs = None ∨ kwargs = Some "p1")).
  - by left.
  - intros kwargs [->| ->]; exists "p1"; (split; [reflexivity | by right]).
Defined.

(** ** The tally, further *)

Section TallyFurther.

Context {M : Type} (mt : MTurk M) (self : MTWorkerMonitor).

Lemma count_of_insert_ne (c : gmap string Z) w w' n :
  w ≠ w' → count_of (<[w := n]> c) w' = count_of c w'.
Proof. intros Hne. unfold count_of. by rewrite lookup_insert_ne. Qed.

Lemma tally_assignment_count st a w :
  count_of (worker_counter (tally_assignment mt self st a)) w
  = count_of (worker_counter st) w + (if bool_decide (WorkerId a = w) then 1 else 0).
Proof.
  destruct (tally_assignment_cases mt self st a) as [Hcount _].
  cbv zeta in Hcount. rewrite Hcount. case_bool_decide as Hw.
  - subst w. by rewrite count_of_insert.
  - rewrite count_of_insert_ne by assumption. lia.
Qed.

Lemma foldl_tally_assignment_count l st w :
  count_of (worker_counter (foldl (tally_assignment mt self) st l)) w
  = count_of (worker_counter st) w
    + Z.of_nat (length (List.filter (λ a, bool_decide (WorkerId a = w)) l)).
Proof.
  revert st. induction l as [|a l IH]; intros st; cbn [foldl List.filter].
  - cbn. lia.
  - rewrite IH, tally_assignment_count. destruct (bool_decide (WorkerId a = w)).
    + cbn [length]. lia.
    + lia.
Qed.

Lemma tally_assignment_tallied m0 bl0 st a :
  tallied mt self m0 bl0 st → tallied mt self m0 bl0 (tally_assignment mt self st a).
Proof.
  intros (Hbl & Hgr & Hcnt & Htr & Hmk).
  pose proof (tally_assignment_count st a) as Hcount.
  destruct (tally_assignment_cases mt self st a)
    as [Hwc [(Hmax & Hw & Hbl' & Hmk' & Htr')|(Hnot & Hbl' & Hmk' & Htr')]];
    cbv zeta in Hwc; unfold tallied; rewrite Hbl', Hmk', Htr'.
  - rewrite grants_app. change (grants [Grant _ _ _; LogInfo _]) with [WorkerId a].
    split; [|split; [|split; [|split]]].
    + rewrite Hbl, list_to_set_app_L. cbn [list_to_set].
      apply set_eq. intros x.
      rewrite !elem_of_union, elem_of_singleton, elem_of_empty. tauto.
    + intros w [Hin|Hin%list_elem_of_singleton]%elem_of_app.
      * destruct (Hgr w Hin) as [Hsome Hle]. split.
        -- rewrite Hwc. destruct (decide (WorkerId a = w)) as [<-|Hne];
             [by rewrite lookup_insert_eq | by rewrite lookup_insert_ne].
        -- rewrite Hcount. case_bool_decide; lia.
      * subst w. split; [rewrite Hwc; by rewrite lookup_insert_eq|].
        rewrite Hcount. rewrite bool_decide_eq_true_2 by reflexivity. exact Hmax.
    + intros w c. rewrite Hwc. destruct (decide (WorkerId a = w)) as [<-|Hne].
      * intros _ _. apply elem_of_union. left. by apply elem_of_singleton.
      * rewrite lookup_insert_ne by assumption. intros Hc Hle.
        apply elem_of_union. right. by apply (Hcnt w c).
    + rewrite fmap_app, concat_app, <- Htr. reflexivity.
    + by rewrite foldl_app, <- Hmk.
  - split; [|split; [|split; [|split]]]; try assumption.
    + intros w Hin. destruct (Hgr w Hin) as [Hsome Hle]. split.
      * rewrite Hwc. destruct (decide (WorkerId a = w)) as [<-|Hne];
          [by rewrite lookup_insert_eq | by rewrite lookup_insert_ne].
      * rewrite Hcount. case_bool_decide; lia.
    + intros w c. rewrite Hwc. destruct (decide (WorkerId a = w)) as [<-|Hne].
      * rewrite lookup_insert_eq. intros [= <-] Hle.
        destruct (decide (WorkerId a ∈ blacklisted_workers st)); [assumption|].
        destruct Hnot. by split.
      * rewrite lookup_insert_ne by assumption. apply Hcnt.
Qed.

Lemma tally_phase_tallied m bl0 hits :
  tallied mt self m bl0 (tally_phase mt self m bl0 hits).
Proof.
  unfold tally_phase. apply foldl_preserves.
  - intros st hit Hst. unfold tally_hit. apply foldl_preserves; [|assumption].
    intros st' a. apply tally_assignment_tallied.
  - unfold tallied. cbn. split; [|split; [|split; [|split]]]; try reflexivity.
    + apply set_eq. intros x. rewrite elem_of_union, elem_of_empty. tauto.
    + intros w Hin. by apply elem_of_nil in Hin.
    + intros w c Hc. by rewrite lookup_empty in Hc.
Qed.

End TallyFurther.

Lemma grant_events_quiet self ws ev :
  ev ∈ concat (grant_events self <$> ws) →
  is_sleep ev = false ∧ ∀ msg, ev ≠ Warn msg.
Proof.
  induction ws as [|w ws IH]; cbn; [intros H; by apply elem_of_nil in H|].
  intros [->|[->|Hin]%elem_of_cons]%elem_of_cons; [by split..|by apply IH].
Qed.

Lemma filter_is_sleep_quiet (evs : list event) :
  (∀ ev, ev ∈ evs → is_sleep ev = false) → List.filter is_sleep evs = [].
Proof.
  induction evs as [|ev evs IH]; [reflexivity|]. intros Hq. cbn [List.filter].
  rewrite (Hq ev) by (apply elem_of_cons; by left).
  apply IH. intros ev' Hin. apply Hq, elem_of_cons. by right.
Qed.

Section CycleFurther.

Context {M : Type} (mt : MTurk M) (self : MTWorkerMonitor).

Lemma cycle_Done fuel m m' evs :
  cycle mt self fuel m = Done (m', evs) →
  ∃ worker_ids hits,
    fetch_workers_with_qualification mt self fuel m = Done worker_ids
    ∧ fetch_and_filter_hits mt self fuel m = Done hits
    ∧ m' = market (tally_phase mt self m (list_to_set worker_ids) hits)
    ∧ evs = (if (length hits =? 0)%nat then [Warn no_hits_warning] else [])
            ++ trace (tally_phase mt self m (list_to_set worker_ids) hits)
            ++ [Sleep (sleep_time self)].
Proof.
  unfold cycle.
  destruct (fetch_workers_with_qualification mt self fuel m) as [ws| |];
    cbn; [|discriminate..].
  destruct (fetch_and_filter_hits mt self fuel m) as [hits| |];
    cbn; [|discriminate..].
  unfold time_sleep. destruct (sleep_time self <? 0); cbn; [discriminate|].
  intros [= <- <-]. by exists ws, hits.
Qed.

Lemma tally_phase_quiet m bl0 hits ev :
  ev ∈ trace (tally_phase mt self m bl0 hits) →
  is_sleep ev = false ∧ ∀ msg, ev ≠ Warn msg.
Proof.
  destruct (tally_phase_tallied mt self m bl0 hits) as (_ & _ & _ & Htr & _).
  rewrite Htr. apply grant_events_quiet.
Qed.

Lemma cycle_sleeps_once fuel m m' evs :
  cycle mt self fuel m = Done (m', evs) →
  length (List.filter is_sleep evs) = 1%nat.
Proof.
  intros (ws & hits & _ & _ & _ & ->)%cycle_Done.
  rewrite !List.filter_app, (filter_is_sleep_quiet (trace _)).
  - destruct (length hits =? 0)%nat; reflexivity.
  - intros ev Hin. by apply tally_phase_quiet in Hin as [? _].
Qed.

Lemma monitor_loop_sleeps cycles fuel m m' evs :
  monitor_loop mt self cycles fuel m = Done (m', evs) →
  length (List.filter is_sleep evs) = cycles.
Proof.
  revert m m' evs. induction cycles as [|cycles IH]; intros m m' evs; cbn [monitor_loop].
  - intros [= <- <-]. reflexivity.
  - destruct (cycle mt self fuel m) as [[m1 evs1]| |] eqn:Hcycle; cbn; [|discriminate..].
    destruct (monitor_loop mt self cycles fuel m1) as [[m2 evs2]| |] eqn:Hloop;
      cbn; [|discriminate..].
    intros [= <- <-]. rewrite List.filter_app, length_app.
    by rewrite (cycle_sleeps_once _ _ _ _ Hcycle), (IH _ _ _ Hloop).
Qed.

End CycleFurther.

(** X14: the tally of a task adds to the count of each worker the number
    of assignments the worker has in the response for that task, be the
    worker blacklisted or not; the request names the statuses
    [Submitted] and [Approved]. *)
Theorem tally_hit_counts_each_assignment {M : Type} (mt : MTurk M)
    (self : MTWorkerMonitor) (st : tally (M := M)) (hit : HIT) (w : string) :
  count_of (worker_counter (tally_hit mt self st hit)) w
  = count_of (worker_counter st) w
    + Z.of_nat (length (List.filter (λ a, bool_decide (WorkerId a = w))
                          (Assignments
                             (list_assignments_for_hit mt (market st) (HITId hit)
                                ["Submitted"; "Approved"])))).
Proof. unfold tally_hit. apply foldl_tally_assignment_count. Qed.

(** X15: after the tally of a cycle the workers granted the qualification
    are exactly those who were not in the blacklist the tally started
    from, had an assignment, and whose count has reached [max_hits]. *)
Theorem tally_phase_grants_exactly {M : Type} (mt : MTurk M)
    (self : MTWorkerMonitor) (m : M) (bl0 : gset string) (hits : list HIT)
    (w : string) :
  let st := tally_phase mt self m bl0 hits in
  w ∈ grants (trace st) ↔
  (w ∉ bl0) ∧ is_Some (worker_counter st !! w)
  ∧ max_hits self ≤ count_of (worker_counter st) w.
Proof.
  cbv zeta.
  destruct (tally_phase_tallied mt self m bl0 hits) as (Hbl & Hgr & Hcnt & _).
  destruct (tally_phase_granted_once mt self m bl0 hits) as (_ & Hin & _).
  split.
  - intros Hw. split; [by apply Hin in Hw as [_ ?] | by apply Hgr].
  - intros (Hbl0 & [c Hc] & Hle).
    unfold count_of in Hle. rewrite Hc in Hle. cbn in Hle.
    pose proof (Hcnt w c Hc Hle) as Hblack. rewrite Hbl in Hblack.
    apply elem_of_union in Hblack as [?|Hg]; [contradiction|].
    by apply elem_of_list_to_set in Hg.
Qed.

(** X16: the tally of a cycle changes the marketplace by one
    [associate_qualification_with_worker] call per granted worker, in the
    order of the grants, each for the configured qualification and without
    notification; its trace is those calls, each followed by its log
    entry, and the blacklist grows by the granted workers only. *)
Theorem tally_phase_effects {M : Type} (mt : MTurk M) (self : MTWorkerMonitor)
    (m : M) (bl0 : gset string) (hits : list HIT) :
  let st := tally_phase mt self m bl0 hits in
  market st
  = foldl (λ m w, associate_qualification_with_worker mt m w
                    (blacklist_qualification_id self) false)
          m (grants (trace st))
  ∧ trace st = concat (grant_events self <$> grants (trace st))
  ∧ blacklisted_workers st = bl0 ∪ list_to_set (grants (trace st)).
Proof.
  cbv zeta.
  destruct (tally_phase_tallied mt self m bl0 hits) as (Hbl & _ & _ & Htr & Hmk).
  auto.
Qed.

(** X17: a cycle that runs to its end warns exactly when it fetched no
    in-batch task, and sleeps once, as the last thing it does. *)
Theorem cycle_warns_iff_empty_and_sleeps_last {M : Type} (mt : MTurk M)
    (self : MTWorkerMonitor) (fuel : nat) (m m' : M) (evs : list event)
    (hits : list HIT) :
  cycle mt self fuel m = Done (m', evs) →
  fetch_and_filter_hits mt self fuel m = Done hits →
  (Warn no_hits_warning ∈ evs ↔ hits = [])
  ∧ last evs = Some (Sleep (sleep_time self))
  ∧ length (List.filter is_sleep evs) = 1%nat.
Proof.
  intros Hcycle Hhits. pose proof (cycle_sleeps_once mt self _ _ _ _ Hcycle) as Hsleep.
  apply cycle_Done in Hcycle as (ws & hits' & _ & Hhits' & _ & ->).
  rewrite Hhits in Hhits'. injection Hhits' as <-.
  split; [|split; [|exact Hsleep]].
  - destruct hits as [|hit hits]; cbn [length Nat.eqb app].
    + split; [reflexivity|]. intros _. apply elem_of_cons. by left.
    + split; [|discriminate]. intros [Hin|Hin%list_elem_of_singleton]%elem_of_app;
        [|discriminate]. apply tally_phase_quiet in Hin as [_ Hin]. by destruct (Hin no_hits_warning).
  - by rewrite !app_assoc, last_snoc.
Qed.

Lemma cycle_warns_iff_empty_and_sleeps_last_witness :
  ∃ evs, (Warn no_hits_warning ∈ evs ↔ [Scenario.task] = [])
         ∧ last evs = Some (Sleep 10)
         ∧ length (List.filter is_sleep evs) = 1%nat.
Proof.
  eexists.
  eapply (cycle_warns_iff_empty_and_sleeps_last Mock.client Scenario.self 3
            Scenario.busy).
  - vm_compute. reflexivity.
  - reflexivity.
Defined.

Lemma grants_of_log_entries (evs : list event) :
  (∀ ev, ev ∈ evs → ∃ msg, ev = LogInfo msg) → grants evs = [].
Proof.
  induction evs as [|ev evs IH]; [reflexivity|]. intros Hlog.
  destruct (Hlog ev) as [msg ->]; [apply elem_of_cons; by left|].
  cbn. apply IH. intros ev' Hin. apply Hlog, elem_of_cons. by right.
Qed.

(** X19: a run that reaches the end of its [cycles]-th turn has slept
    [cycles] times; what comes before its loop, the fetch and the logging
    of the initial blacklist, grants nothing: the grants and the
    marketplace of the run are those of its loop. *)
Theorem run_sleeps_each_turn_and_grants_in_loop {M : Type} (mt : MTurk M)
    (self : MTWorkerMonitor) (cycles fuel : nat) (m m' : M) (evs : list event) :
  run mt self cycles fuel m = Done (m', evs) →
  length (List.filter is_sleep evs) = cycles
  ∧ ∃ loop_evs, monitor_loop mt self cycles fuel m = Done (m', loop_evs)
                ∧ grants evs = grants loop_evs.
Proof.
  unfold run.
  destruct (fetch_workers_with_qualification mt self fuel m) as [ws| |];
    cbn; [|discriminate..].
  destruct (monitor_loop mt self cycles fuel m) as [[m1 evs1]| |] eqn:Hloop;
    cbn; [|discriminate..].
  match goal with |- context [?l ++ LogInfo _ :: evs1] => set (listed := l) end.
  intros [= <- <-].
  assert (Hlog : ∀ ev, ev ∈ listed → ∃ msg, ev = LogInfo msg).
  { subst listed. destruct (length ws); intros ev Hin;
      [by apply elem_of_nil in Hin|].
    apply elem_of_cons in Hin as [->|Hin]; [eauto|].
    apply list_elem_of_In, in_map_iff in Hin as (w & <- & _). eauto. }
  pose proof (monitor_loop_sleeps mt self _ _ _ _ _ Hloop) as Hturns.
  split; [|exists evs1; split; [reflexivity|]].
  - rewrite List.filter_app, length_app, (filter_is_sleep_quiet listed).
    + cbn. exact Hturns.
    + intros ev [msg ->]%Hlog. reflexivity.
  - rewrite grants_app, (grants_of_log_entries listed Hlog). reflexivity.
Qed.

Lemma run_sleeps_each_turn_and_grants_in_loop_witness :
  ∃ m' evs, run Mock.client Scenario.self 2 3 Scenario.busy = Done (m', evs)
            ∧ length (List.filter is_sleep evs) = 2%nat.
Proof.
  eexists _, _. split; [vm_compute; reflexivity|].
  eapply (run_sleeps_each_turn_and_grants_in_loop Mock.client Scenario.self 2 3
            Scenario.busy).
  vm_compute. reflexivity.
Defined.

(** X20: when the first response of the list of qualified workers carries
    no continuation token, the cycle, under a [sleep_time] that is not
    negative, tallies against an empty blacklist: it grants every worker
    who has an assignment and whose count has reached [max_hits], those
    named in that response included. *)
Theorem single_response_blacklist_is_not_seen {M : Type} (mt : MTurk M)
    (self : MTWorkerMonitor) (fuel : nat) (m : M) (hits : list HIT) :
  0 ≤ sleep_time self →
  QualificationsNextToken
    (list_workers_with_qualification_type mt m
       (blacklist_qualification_id self) "Granted" None) = None →
  fetch_and_filter_hits mt self (S fuel) m = Done hits →
  let st := tally_phase mt self m ∅ hits in
  ∃ evs, cycle mt self (S fuel) m = Done (market st, evs)
         ∧ ∀ w, w ∈ grants evs ↔
                is_Some (worker_counter st !! w)
                ∧ max_hits self ≤ count_of (worker_counter st) w.
Proof.
  intros Hsleep Hlast Hhits. cbv zeta. eexists. split.
  - assert (Hws : fetch_workers_with_qualification mt self (S fuel) m = Done []).
    { unfold fetch_workers_with_qualification.
      cbn [fetch_workers_with_qualification_loop]. by rewrite Hlast. }
    unfold cycle, time_sleep. rewrite Hws, Hhits.
    destruct (Z.ltb_spec (sleep_time self) 0); [lia|]. reflexivity.
  - intros w. rewrite !grants_app.
    assert (Hside : ∀ evs', grants ((if (length hits =? 0)%nat
                                     then [Warn no_hits_warning] else [])) ++ evs'
                            ++ grants [Sleep (sleep_time self)] = evs').
    { intros evs'. destruct (length hits =? 0)%nat; cbn; by rewrite app_nil_r. }
    rewrite Hside.
    destruct (tally_phase_tallied mt self m ∅ hits) as (Hbl & Hgr & Hcnt & _).
    split; [by apply Hgr|].
    intros ([c Hc] & Hle). unfold count_of in Hle. rewrite Hc in Hle. cbn in Hle.
    pose proof (Hcnt w c Hc Hle) as Hblack. rewrite Hbl in Hblack.
    apply elem_of_union in Hblack as [Hempty|Hg];
      [by apply elem_of_empty in Hempty | by apply elem_of_list_to_set in Hg].
Qed.

Lemma single_response_blacklist_is_not_seen_witness :
  Qualifications (list_workers_with_qualification_type Mock.client Scenario.relisted
                    "QUAL" "Granted" None) = [Mock.holder "A"]
  ∧ ∃ m' evs, cycle Mock.client Scenario.self 3 Scenario.relisted = Done (m', evs)
              ∧ "A" ∈ grants evs.
Proof.
  split; [reflexivity|].
  destruct (single_response_blacklist_is_not_seen Mock.client Scenario.self 2
              Scenario.relisted [Scenario.task] ltac:(cbn; lia) eq_refl eq_refl)
    as (evs & Hcycle & Hgrants).
  eexists _, evs. split; [exact Hcycle|].
  apply Hgrants. split; [vm_compute; eauto | vm_compute; discriminate].
Defined.

(** ** The logger *)

Section LoggingFacts.

Import Logging.

Lemma setup_logger_step s :
  well_formed s →
  well_formed (setup_logger s)
  ∧ handlers (getLogger (setup_logger s) "monitor")
    = handlers (getLogger s "monitor")
      ++ [{| handler_id := created s;
             formatter := Some "%(asctime)s [%(levelname)s]: %(message)s" |}]
  ∧ level (getLogger (setup_logger s) "monitor") = INFO
  ∧ ∀ name, name ≠ "monitor" →
            loggers (setup_logger s) !! name = loggers s !! name.
Proof.
  intros Hwf.
  assert (Hfresh : created s ∉ handler_id <$> handlers (getLogger s "monitor")).
  { intros (h & Hid & Hin)%list_elem_of_fmap. unfold getLogger in Hin.
    destruct (loggers s !! "monitor") as [lg|] eqn:Hlg; cbn in Hin.
    - pose proof (Hwf _ _ _ Hlg Hin). lia.
    - by apply elem_of_nil in Hin. }
  assert (Hnew : loggers (setup_logger s) !! "monitor"
                 = Some {| level := INFO;
                           handlers := handlers (getLogger s "monitor")
                             ++ [{| handler_id := created s;
                                    formatter := Some
                                      "%(asctime)s [%(levelname)s]: %(message)s" |}] |}).
  { unfold setup_logger, addHandler, setLevel, setFormatter. cbn.
    rewrite bool_decide_eq_false_2 by exact Hfresh. by rewrite lookup_insert_eq. }
  split; [|split; [|split]].
  - intros name lg h Hlg Hin. cbn [created setup_logger].
    destruct (decide (name = "monitor")) as [->|Hne].
    + rewrite Hnew in Hlg. injection Hlg as <-. cbn in Hin.
      apply elem_of_app in Hin as [Hin|Hin%list_elem_of_singleton];
        [|subst h; cbn; lia].
      unfold getLogger in Hin.
      destruct (loggers s !! "monitor") as [lg|] eqn:Hold; cbn in Hin.
      * pose proof (Hwf _ _ _ Hold Hin). lia.
      * by apply elem_of_nil in Hin.
    + unfold setup_logger in Hlg. cbn in Hlg.
      rewrite lookup_insert_ne in Hlg by done.
      pose proof (Hwf _ _ _ Hlg Hin). lia.
  - unfold getLogger at 1. by rewrite Hnew.
  - unfold getLogger. by rewrite Hnew.
  - intros name Hne. unfold setup_logger. cbn. by rewrite lookup_insert_ne.
Qed.

Lemma setup_logger_iter k s :
  well_formed s →
  well_formed (Nat.iter k setup_logger s)
  ∧ length (handlers (getLogger (Nat.iter k setup_logger s) "monitor"))
    = (length (handlers (getLogger s "monitor")) + k)%nat
  ∧ ((0 < k)%nat → level (getLogger (Nat.iter k setup_logger s) "monitor") = INFO)
  ∧ ∀ name, name ≠ "monitor" →
            loggers (Nat.iter k setup_logger s) !! name = loggers s !! name.
Proof.
  intros Hwf. induction k as [|k (Hwf' & Hlen & _ & Hother)].
  - cbn. split; [assumption|]. split; [lia|]. split; [lia|reflexivity].
  - rewrite !Nat.iter_succ.
    destruct (setup_logger_step _ Hwf') as (Hwf'' & Hh & Hl & Ho).
    split; [assumption|]. split; [|split].
    + rewrite Hh, length_app, Hlen. cbn. lia.
    + intros _. exact Hl.
    + intros name Hne. by rewrite Ho, Hother.
Qed.

End LoggingFacts.

(** X21: [setup_logger] is not idempotent. Each call adds one more stream
    handler to the one logger named ["monitor"] that all callers share, so
    after [k] calls the logger has [k] more handlers than before; it
    leaves the logger at level [INFO] and touches no other logger. *)
Theorem setup_logger_adds_a_handler_each_call (s : Logging.state) (k : nat) :
  Logging.well_formed s →
  length (Logging.handlers
            (Logging.getLogger (Nat.iter k Logging.setup_logger s) "monitor"))
  = (length (Logging.handlers (Logging.getLogger s "monitor")) + k)%nat
  ∧ ((0 < k)%nat →
     Logging.level (Logging.getLogger (Nat.iter k Logging.setup_logger s) "monitor")
     = Logging.INFO)
  ∧ ∀ name, name ≠ "monitor" →
            Logging.loggers (Nat.iter k Logging.setup_logger s) !! name
            = Logging.loggers s !! name.
Proof. intros Hwf. by destruct (setup_logger_iter k s Hwf) as (_ & ? & ? & ?). Qed.

Lemma setup_logger_adds_a_handler_each_call_witness :
  length (Logging.handlers
            (Logging.getLogger (Nat.iter 2 Logging.setup_logger Logging.fresh)
               "monitor"))
  = 2%nat.
Proof.
  destruct (setup_logger_adds_a_handler_each_call Logging.fresh 2) as [Hlen _].
  - intros name lg h Hlg. cbn in Hlg. by rewrite lookup_empty in Hlg.
  - exact Hlen.
Defined.

(** ** A threshold below two *)

Section EagerFacts.

Context {M : Type} (mt : MTurk M) (self : MTWorkerMonitor).

Lemma tally_assignment_counted st a :
  counted st → counted (tally_assignment mt self st a).
Proof.
  intros Hst w. rewrite tally_assignment_count. specialize (Hst w).
  case_bool_decide; lia.
Qed.

Lemma tally_assignment_blacklist_grows st a w :
  w ∈ blacklisted_workers st →
  w ∈ blacklisted_workers (tally_assignment mt self st a).
Proof.
  intros Hw.
  destruct (tally_assignment_cases mt self st a)
    as [_ [(_ & _ & -> & _)|(_ & -> & _)]]; [|assumption].
  apply elem_of_union. by right.
Qed.

Lemma tally_assignment_eager st a :
  max_hits self ≤ 1 → counted st →
  WorkerId a ∈ blacklisted_workers (tally_assignment mt self st a).
Proof.
  intros Hmax Hst.
  destruct (tally_assignment_cases mt self st a)
    as [_ [(_ & _ & -> & _)|(Hnot & -> & _)]].
  - apply elem_of_union. left. by apply elem_of_singleton.
  - destruct (decide (WorkerId a ∈ blacklisted_workers st)); [assumption|].
    destruct Hnot. split; [|assumption]. specialize (Hst (WorkerId a)). lia.
Qed.

Lemma foldl_tally_assignment_eager l st :
  max_hits self ≤ 1 → counted st →
  counted (foldl (tally_assignment mt self) st l)
  ∧ (∀ w, w ∈ blacklisted_workers st →
          w ∈ blacklisted_workers (foldl (tally_assignment mt self) st l))
  ∧ ∀ a, a ∈ l →
         WorkerId a ∈ blacklisted_workers (foldl (tally_assignment mt self) st l).
Proof.
  intros Hmax. revert st. induction l as [|a l IH]; intros st Hst; cbn [foldl].
  - split; [assumption|]. split; [auto|]. intros a Hin. by apply elem_of_nil in Hin.
  - destruct (IH (tally_assignment mt self st a)) as (Hc & Hgrow & Hall);
      [by apply tally_assignment_counted|].
    split; [assumption|]. split.
    + intros w Hw. by apply Hgrow, tally_assignment_blacklist_grows.
    + intros a' [->|Hin]%elem_of_cons; [|by apply Hall].
      by apply Hgrow, tally_assignment_eager.
Qed.

Lemma foldl_tally_hit_grows hits st :
  (counted st → counted (foldl (tally_hit mt self) st hits))
  ∧ ∀ w, w ∈ blacklisted_workers st →
         w ∈ blacklisted_workers (foldl (tally_hit mt self) st hits).
Proof.
  revert st. induction hits as [|hit hits IH]; intros st; cbn [foldl]; [auto|].
  destruct (IH (tally_hit mt self st hit)) as [Hc Hgrow]. split.
  - intros Hst. apply Hc. unfold tally_hit. apply foldl_preserves; [|assumption].
    intros st' a. apply tally_assignment_counted.
  - intros w Hw. apply Hgrow. unfold tally_hit.
    apply (foldl_preserves (λ st', w ∈ blacklisted_workers st')); [|assumption].
    intros st' a. apply tally_assignment_blacklist_grows.
Qed.

(** With a threshold below two, a worker who has an assignment in a
    response the tally reads and who was not blacklisted at its start is
    granted the qualification by the tally. *)
Lemma tally_phase_eager m bl0 hits1 hit hits2 a :
  max_hits self ≤ 1 →
  a ∈ Assignments
        (list_assignments_for_hit mt (market (tally_phase mt self m bl0 hits1))
           (HITId hit) ["Submitted"; "Approved"]) →
  WorkerId a ∉ bl0 →
  WorkerId a ∈ grants (trace (tally_phase mt self m bl0 (hits1 ++ hit :: hits2))).
Proof.
  intros Hmax Ha Hbl0.
  destruct (tally_phase_tallied mt self m bl0 (hits1 ++ hit :: hits2))
    as (Hbl & _).
  assert (Hin : WorkerId a ∈ blacklisted_workers
                               (tally_phase mt self m bl0 (hits1 ++ hit :: hits2))).
  { unfold tally_phase. rewrite foldl_app. cbn [foldl].
    apply foldl_tally_hit_grows. unfold tally_hit at 1.
    apply foldl_tally_assignment_eager; [assumption| |exact Ha].
    apply foldl_tally_hit_grows. intros w. cbn. unfold count_of.
    by rewrite lookup_empty. }
  rewrite Hbl in Hin. apply elem_of_union in Hin as [?|Hin]; [contradiction|].
  by apply elem_of_list_to_set in Hin.
Qed.

Lemma cycle_grants fuel m m' evs worker_ids hits :
  cycle mt self fuel m = Done (m', evs) →
  fetch_workers_with_qualification mt self fuel m = Done worker_ids →
  fetch_and_filter_hits mt self fuel m = Done hits →
  grants evs
  = grants (trace (tally_phase mt self m (list_to_set worker_ids) hits)).
Proof.
  intros (ws & hits' & Hws & Hhits & _ & ->)%cycle_Done Hws' Hhits'.
  rewrite Hws in Hws'. injection Hws' as <-.
  rewrite Hhits in Hhits'. injection Hhits' as ->.
  rewrite !grants_app. destruct (length hits =? 0)%nat; cbn; by rewrite app_nil_r.
Qed.

End EagerFacts.

(** C10: [init] keeps [max_hits] as it is given, whatever its sign. When
    it is at most [1], the body of the tally, run on the first assignment
    it sees of a worker who is not in the blacklist as extended so far,
    issues the grant for that worker then and there; and in a cycle that
    runs to its end, every worker who has an assignment in a response the
    tally reads, and who is not in the blacklist the cycle fetched, is
    granted the qualification in that cycle. *)
Theorem max_hits_below_two_grants_at_once {M : Type} (mt : MTurk M)
    (max_hits0 batch_id0 sleep_time0 : Z) (qualification_id : string) :
  let self := init max_hits0 batch_id0 qualification_id sleep_time0 in
  max_hits0 ≤ 1 →
  max_hits self = max_hits0
  ∧ (∀ (st : tally (M := M)) (a : Assignment),
       worker_counter st !! WorkerId a = None →
       WorkerId a ∉ blacklisted_workers st →
       trace (tally_assignment mt self st a)
       = trace st ++
         [Grant (WorkerId a) qualification_id false;
          LogInfo ("worker '" +:+ WorkerId a +:+ "' is blacklisted.")]
       ∧ market (tally_assignment mt self st a)
         = associate_qualification_with_worker mt (market st) (WorkerId a)
             qualification_id false)
  ∧ ∀ fuel m m' evs worker_ids hits1 hit hits2 a,
      cycle mt self fuel m = Done (m', evs) →
      fetch_workers_with_qualification mt self fuel m = Done worker_ids →
      fetch_and_filter_hits mt self fuel m = Done (hits1 ++ hit :: hits2) →
      a ∈ Assignments
            (list_assignments_for_hit mt
               (market (tally_phase mt self m (list_to_set worker_ids) hits1))
               (HITId hit) ["Submitted"; "Approved"]) →
      WorkerId a ∉ worker_ids →
      WorkerId a ∈ grants evs.
Proof.
  cbv zeta. intros Hmax. split; [reflexivity|]. split.
  - intros st a Hfirst Hw.
    destruct (tally_assignment_cases mt (init max_hits0 batch_id0 qualification_id
                                           sleep_time0) st a)
      as [_ [(_ & _ & _ & Hmk & Htr)|(Hnot & _)]].
    + split; assumption.
    + destruct Hnot. split; [|assumption].
      unfold count_of. rewrite Hfirst. cbn. lia.
  - intros fuel m m' evs worker_ids hits1 hit hits2 a Hcycle Hws Hhits Ha Hw.
    rewrite (cycle_grants mt _ _ _ _ _ _ _ Hcycle Hws Hhits).
    apply tally_phase_eager; [exact Hmax | exact Ha |].
    intros Hin. apply elem_of_list_to_set in Hin. by apply Hw.
Qed.

Lemma max_hits_below_two_grants_at_once_witness :
  ∃ m' evs,
    cycle Mock.client Scenario.eager 3 Scenario.busy = Done (m', evs)
    ∧ grants evs = ["A"] ∧ "A" ∈ grants evs.
Proof.
  eexists _, _. split; [vm_compute; reflexivity|]. split; [reflexivity|].
  destruct (max_hits_below_two_grants_at_once Mock.client 0 42 10 "QUAL")
    as (_ & _ & Hcycle); [lia|].
  eapply (Hcycle 3%nat Scenario.busy _ _ ["W"] [] Scenario.task []
            (Mock.submitted "A")).
  - vm_compute. reflexivity.
  - reflexivity.
  - reflexivity.
  - vm_compute. apply elem_of_cons. by left.
  - intros Hin. apply list_elem_of_singleton in Hin. discriminate Hin.
Defined.
